(** * Tatum MCP server: the retrying JSON-RPC proxy and the fixed-point
      formatter of [tatum-mcp-server/src/mcp.ts]

    The development embeds [tatumRpc], [hexToBigInt], [weiToEtherString],
    the inline formatter of the [get_token_balance] tool and the
    [rpc_call] tool of [mcp.ts] as Rocq functions and states the
    properties of the specification over them.

    Conventions of the embedding:
    - a JavaScript string is a [string] whose characters are code units
      below 256;
    - a [bigint] is a [Z]; a JavaScript number that holds an integer is a
      [Z] as well (exact below 2^53);
    - a function that can throw returns a [result];
    - asynchronous code that talks to the network runs in the monad [M]
      over a [World] that logs every HTTP request and every delay slept. *)

From Stdlib Require Import ZArith QArith Qround String Ascii List Lia Bool.
From stdpp Require Import gmap strings sorting.
Import ListNotations.

Local Open Scope string_scope.
Local Open Scope list_scope.
Local Open Scope Z_scope.

#[local] Arguments String.append !s1 s2 : simpl nomatch.

(** ** JavaScript values and errors *)

Inductive ErrorKind : Set :=
| KError | KTypeError | KSyntaxError | KRangeError | KFetchError.

Record JsError : Set := mkError { kind : ErrorKind; message : string }.

Inductive result (A : Type) : Type :=
| Ok (a : A)
| Throw (e : JsError).
Arguments Ok {A} a.
Arguments Throw {A} e.

Definition bindR {A B} (r : result A) (k : A -> result B) : result B :=
  match r with
  | Ok a => k a
  | Throw e => Throw e
  end.

(** Values produced by [JSON.parse], plus [undefined]. *)
#[warnings="-register-all"]
Inductive JsValue : Type :=
| VUndefined
| VNull
| VBool (b : bool)
| VNum (n : Z)
| VStr (s : string)
| VArr (items : list JsValue)
| VObj (fields : list (string * JsValue)).

(** ** Strings *)

Definition isAsciiDigit (c : ascii) : bool :=
  let n := Z.of_nat (nat_of_ascii c) in (48 <=? n) && (n <=? 57).

(** Value of a character as a digit in a radix up to 16, [None] when the
    character is no digit. *)
Definition digitValue (c : ascii) : option Z :=
  let n := Z.of_nat (nat_of_ascii c) in
  if (48 <=? n) && (n <=? 57) then Some (n - 48)
  else if (97 <=? n) && (n <=? 102) then Some (n - 87)
  else if (65 <=? n) && (n <=? 70) then Some (n - 55)
  else None.

(** WhiteSpace and LineTerminator code units below 256. *)
Definition isWhiteSpace (c : ascii) : bool :=
  let n := Z.of_nat (nat_of_ascii c) in
  ((9 <=? n) && (n <=? 13)) || (n =? 32) || (n =? 160).

Fixpoint trimStart (s : string) : string :=
  match s with
  | EmptyString => EmptyString
  | String c r => if isWhiteSpace c then trimStart r else s
  end.

Fixpoint trimEnd (s : string) : string :=
  match s with
  | EmptyString => EmptyString
  | String c r =>
      match trimEnd r with
      | EmptyString => if isWhiteSpace c then EmptyString else String c EmptyString
      | r' => String c r'
      end
  end.

Definition trim (s : string) : string := trimEnd (trimStart s).

(** [String.prototype.padStart] with a one-character filler, the only
    form [mcp.ts] uses. *)
Fixpoint repeatChar (n : nat) (c : ascii) : string :=
  match n with
  | O => EmptyString
  | S k => String c (repeatChar k c)
  end.

Definition padStart (s : string) (targetLength : nat) (fill : ascii) : string :=
  repeatChar (targetLength - String.length s) fill +:+ s.

(** [s.replace(/0+$/, '')]: the longest run of ['0'] at the end is removed. *)
Fixpoint stripTrailingZeros (s : string) : string :=
  match s with
  | EmptyString => EmptyString
  | String c r =>
      match stripTrailingZeros r with
      | EmptyString => if Ascii.eqb c "0" then EmptyString else String c EmptyString
      | r' => String c r'
      end
  end.

(** [s.replace(/^0x/, '')]. *)
Definition stripHexPrefix (s : string) : string :=
  match s with
  | String "0" (String "x" r) => r
  | _ => s
  end.

(** [a || b] on strings: the empty string is falsy. *)
Definition orElse (a b : string) : string :=
  match a with
  | EmptyString => b
  | _ => a
  end.

(** ** BigInt *)

Definition digitChar (d : Z) : ascii := ascii_of_nat (Z.to_nat (48 + d)).

(** Decimal digits of a non-negative integer, most significant first,
    pushed in front of [acc]. [fuel] bounds the number of digits. *)
Fixpoint digitsOf (fuel : nat) (n : Z) (acc : string) : string :=
  match fuel with
  | O => acc
  | S f =>
      let acc' := String (digitChar (n mod 10)) acc in
      if n <? 10 then acc' else digitsOf f (n / 10) acc'
  end.

Definition natToString (n : Z) : string :=
  digitsOf (S (Z.to_nat (Z.log2 n))) n EmptyString.

(** [BigInt.prototype.toString()] (radix 10); the same text is what
    [String(n)] gives for a number [n] that holds an integer. *)
Definition bigIntToString (n : Z) : string :=
  if n <? 0 then String "-" (natToString (- n)) else natToString n.

(** Digits of [s] in [radix], folded into [acc]; [None] when a character
    is not a digit of the radix. *)
Fixpoint parseDigits (radix : Z) (s : string) (acc : Z) : option Z :=
  match s with
  | EmptyString => Some acc
  | String c r =>
      match digitValue c with
      | Some d => if d <? radix then parseDigits radix r (acc * radix + d) else None
      | None => None
      end
  end.

(** A non-empty run of digits. *)
Definition parseNumeral (radix : Z) (s : string) : option Z :=
  match s with
  | EmptyString => None
  | _ => parseDigits radix s 0
  end.

(** StringIntegerLiteral of ECMAScript after trimming: a prefixed
    literal in radix 16, 8 or 2 carries no sign, a decimal one may. *)
Definition parseIntegerLiteral (t : string) : option Z :=
  match t with
  | EmptyString => Some 0
  | String "0" (String ("x" | "X") r) => parseNumeral 16 r
  | String "0" (String ("o" | "O") r) => parseNumeral 8 r
  | String "0" (String ("b" | "B") r) => parseNumeral 2 r
  | String "-" r => option_map Z.opp (parseNumeral 10 r)
  | String "+" r => parseNumeral 10 r
  | _ => parseNumeral 10 t
  end.

Definition cannotConvert (s : string) : JsError :=
  mkError KSyntaxError ("Cannot convert " +:+ s +:+ " to a BigInt").

(** StringToBigInt. *)
Definition stringToBigInt (s : string) : result Z :=
  match parseIntegerLiteral (trim s) with
  | Some n => Ok n
  | None => Throw (cannotConvert s)
  end.

(** ToString of a value. *)
Fixpoint toStr (v : JsValue) : string :=
  match v with
  | VUndefined => "undefined"
  | VNull => "null"
  | VBool b => if b then "true" else "false"
  | VNum n => bigIntToString n
  | VStr s => s
  | VArr items =>
      (fix join (l : list JsValue) : string :=
         match l with
         | [] => EmptyString
         | x :: r =>
             let sx := match x with
                       | VUndefined | VNull => EmptyString
                       | _ => toStr x
                       end in
             match r with
             | [] => sx
             | _ => sx +:+ "," +:+ join r
             end
         end) items
  | VObj _ => "[object Object]"
  end.

(** ToBoolean. *)
Definition truthy (v : JsValue) : bool :=
  match v with
  | VUndefined | VNull => false
  | VBool b => b
  | VNum n => negb (n =? 0)
  | VStr s => negb (String.eqb s EmptyString)
  | VArr _ | VObj _ => true
  end.

Fixpoint lookupField (key : string) (fields : list (string * JsValue)) : JsValue :=
  match fields with
  | [] => VUndefined
  | (k, v) :: r => if String.eqb k key then v else lookupField key r
  end.

(** [v.key] for a key that is no built-in property ([error], [message]
    and [result] are none). *)
Definition getProp (v : JsValue) (key : string) : result JsValue :=
  match v with
  | VUndefined | VNull =>
      Throw (mkError KTypeError
               ("Cannot read properties of " +:+ toStr v
                +:+ " (reading '" +:+ key +:+ "')"))
  | VObj fields => Ok (lookupField key fields)
  | _ => Ok VUndefined
  end.

(** [BigInt(v)]. *)
Definition BigInt (v : JsValue) : result Z :=
  match v with
  | VUndefined | VNull =>
      Throw (mkError KTypeError ("Cannot convert " +:+ toStr v +:+ " to a BigInt"))
  | VBool b => Ok (if b then 1 else 0)
  | VNum n => Ok n
  | VStr s => stringToBigInt s
  | VArr _ | VObj _ => stringToBigInt (toStr v)
  end.

(** [a ** b] on bigints. *)
Definition bigPow (a b : Z) : result Z :=
  if b <? 0 then Throw (mkError KRangeError "Exponent must be non-negative")
  else Ok (a ^ b).

(** A number that holds an integer, or an infinity. *)
Inductive JsNumber : Set :=
| Finite (n : Z)
| Infinite (negative : bool).

(** The double nearest to a non-negative integer, ties to the even
    significand of 53 bits; [None] when that is above the largest double. *)
Definition roundToDouble (n : Z) : option Z :=
  let bits := Z.log2 n + 1 in
  if bits <=? 53 then Some n
  else
    let shift := bits - 53 in
    let q := Z.shiftr n shift in
    let r := n mod 2 ^ shift in
    let half := 2 ^ (shift - 1) in
    let q' := if (half <? r) || ((r =? half) && Z.odd q) then q + 1 else q in
    let v := q' * 2 ^ shift in
    if v <? 2 ^ 1024 then Some v else None.

(** [Number(b)] of a bigint. *)
Definition numberOfBigInt (b : Z) : JsNumber :=
  if b <? 0
  then match roundToDouble (- b) with
       | Some v => Finite (- v)
       | None => Infinite true
       end
  else match roundToDouble b with
       | Some v => Finite v
       | None => Infinite false
       end.

(** The RangeError of [BigInt(x)] for an infinite number [x]. *)
Definition notAnInteger (negative : bool) : JsError :=
  mkError KRangeError
    ("The number " +:+ (if negative then "-Infinity" else "Infinity")
     +:+ " cannot be converted to a BigInt because it is not an integer").

(** ** The fixed-point formatter of [mcp.ts] *)

(** [hex] is typed [string] in the source; the values that reach it at
    run time are results of [tatumRpc], of type [any]. *)
Definition hexToBigInt (hex : JsValue) : result Z := BigInt hex.

Definition weiToEtherString (weiHex : JsValue) : result string :=
  bindR (hexToBigInt weiHex) (fun wei =>
  let base := 10 ^ 18 in
  let whole := Z.quot wei base in
  let frac := Z.rem wei base in
  let fracStr :=
    orElse (stripTrailingZeros (padStart (bigIntToString frac) 18 "0")) "0" in
  Ok (bigIntToString whole
      +:+ (if String.eqb fracStr "0" then EmptyString else "." +:+ fracStr))).

(** Lines 112 to 117 of the [get_token_balance] tool: the raw balance
    and its rendering with [decimals] fractional digits. *)
Definition tokenFormatted (hexBal : JsValue) (decimals : Z) : result (Z * string) :=
  bindR (hexToBigInt hexBal) (fun raw =>
  bindR (bigPow 10 decimals) (fun base =>
  let whole := Z.quot raw base in
  let frac := Z.rem raw base in
  let fracStr :=
    orElse (stripTrailingZeros
              (padStart (bigIntToString frac) (Z.to_nat decimals) "0")) "0" in
  let formatted :=
    bigIntToString whole
    +:+ (if String.eqb fracStr "0" then EmptyString else "." +:+ fracStr) in
  Ok (raw, formatted))).

(** ** The world: HTTP transport, timers and the random source *)

Record Cfg : Set := { tatumApiKey : string; chain : string }.

(** An HTTP POST as [fetch] receives it; [body] is the value handed to
    [JSON.stringify]. *)
Record Request : Type :=
  { url : string; contentType : string; xApiKey : string; body : JsValue }.

(** What [fetch] gives for one request: a rejection, or a response with
    its status and the outcome of [res.json()]. *)
Inductive FetchOutcome : Type :=
| FetchFailed (e : JsError)
| Response (status : Z) (json : result JsValue).

(** The requests sent so far (oldest first), the delays slept so far and
    the number of values drawn from [Math.random]. *)
Record World : Type :=
  { sent : list Request; slept : list Z; drawn : nat }.

Definition initialWorld : World := {| sent := []; slept := []; drawn := 0 |}.

Definition logRequest (req : Request) (w : World) : World :=
  {| sent := sent w ++ [req]; slept := slept w; drawn := drawn w |}.

Definition logSleep (ms : Z) (w : World) : World :=
  {| sent := sent w; slept := slept w ++ [ms]; drawn := drawn w |}.

Definition logDraw (w : World) : World :=
  {| sent := sent w; slept := slept w; drawn := S (drawn w) |}.

Definition M (A : Type) : Type := World -> result A * World.

Definition ret {A} (a : A) : M A := fun w => (Ok a, w).
Definition throw {A} (e : JsError) : M A := fun w => (Throw e, w).
Definition liftR {A} (r : result A) : M A := fun w => (r, w).

Definition bind {A B} (c : M A) (k : A -> M B) : M B :=
  fun w =>
    match c w with
    | (Ok a, w') => k a w'
    | (Throw e, w') => (Throw e, w')
    end.

(** [try { c } catch { h }]. *)
Definition tryCatch {A} (c : M A) (h : JsError -> M A) : M A :=
  fun w =>
    match c w with
    | (Ok a, w') => (Ok a, w')
    | (Throw e, w') => h e w'
    end.

Notation "'let*' x ':=' c 'in' k" := (bind c (fun x => k))
  (at level 10, x pattern, c at level 100, k at level 200).

(** Options of [p-retry]; a field the caller leaves out is [None]. *)
Record RetryOptions : Set :=
  { retries : option nat;
    factor : Z;
    minTimeout : Z;
    maxTimeout : Z;
    randomize : bool }.

(** [Math.round] on a rational. *)
Definition mathRound (x : Q) : Z := Qfloor (x + (1 # 2)).

(** The value a tool returns, [{ content: [{ type: 'text', text:
    JSON.stringify(value, null, space) }] }]; [space] is 0 where the
    source passes none. *)
Inductive ToolResult : Type :=
| TextContent (value : JsValue) (space : Z).

Definition ALLOW_METHODS : gset string :=
  list_to_set
    [ "eth_blockNumber"; "eth_getBalance"; "eth_getBlockByNumber";
      "eth_getTransactionByHash"; "eth_getLogs"; "eth_call"; "eth_chainId";
      "eth_gasPrice"; "eth_estimateGas"; "eth_getCode";
      "eth_getTransactionReceipt" ].

(** A validated call of one of the seven tools [createServer] registers,
    with the arguments its schema admits; an optional argument left out
    is [None]. *)
Inductive ToolCall : Type :=
| GetBlockNumber
| GetNativeBalance (address : string)
| GetTokenBalance (tokenAddress address : string)
| GetBlockByNumber (tagOrNumber : string) (full : option bool)
| GetTransactionByHash (hash : string)
| GetLogs (fromBlock toBlock address : option string)
    (topics : option (list (option string)))
| RpcCall (method : string) (params : list JsValue).

Definition toolName (c : ToolCall) : string :=
  match c with
  | GetBlockNumber => "get_block_number"
  | GetNativeBalance _ => "get_native_balance"
  | GetTokenBalance _ _ => "get_token_balance"
  | GetBlockByNumber _ _ => "get_block_by_number"
  | GetTransactionByHash _ => "get_transaction_by_hash"
  | GetLogs _ _ _ _ => "get_logs"
  | RpcCall _ _ => "rpc_call"
  end.

(** An optional string as a property value: [undefined] when left out. *)
Definition optString (o : option string) : JsValue :=
  match o with
  | Some s => VStr s
  | None => VUndefined
  end.

Section Server.

(** The environment: the answer of the network to the [n]-th request of
    the run (counting from 0) and the [n]-th value of [Math.random], a
    rational that stands for the double in [0, 1); nothing below depends
    on the values drawn. *)
Variable transport : nat -> Request -> FetchOutcome.
Variable random : nat -> Q.

Definition fetch (req : Request) : M (Z * result JsValue) :=
  fun w =>
    match transport (length (sent w)) req with
    | FetchFailed e => (Throw e, logRequest req w)
    | Response status json => (Ok (status, json), logRequest req w)
    end.

Definition mathRandom : M Q :=
  fun w => (Ok (random (drawn w)), logDraw w).

Definition sleep (ms : Z) : M unit :=
  fun w => (Ok tt, logSleep ms w).

(** *** The retry loop of [p-retry]

    [pRetry] is the [p-retry] package (version 6, on the [retry]
    package), which is no part of the repository. The model follows its
    documented behaviour: [retries] defaults to 10; the delays are
    computed when the operation is created, [Math.round(random *
    max(minTimeout, 1) * factor^attempt)] capped at [maxTimeout], and
    sorted ascending; a rejection is retried unless it is a [TypeError]
    that is no network error; when no delay is left the operation
    rejects with the error whose message was seen most often, the later
    one on a tie. *)

Definition createTimeout (attempt : nat) (opts : RetryOptions) : M Z :=
  let* rnd := (if randomize opts
               then (let* r := mathRandom in ret (r + 1)%Q)
               else ret 1%Q) in
  let timeout :=
    mathRound (rnd * inject_Z (Z.max (minTimeout opts) 1)
               * inject_Z (factor opts ^ Z.of_nat attempt))%Q in
  ret (Z.min timeout (maxTimeout opts)).

Fixpoint createTimeouts (n : nat) (attempt : nat) (opts : RetryOptions)
  : M (list Z) :=
  match n with
  | O => ret []
  | S k =>
      let* t := createTimeout attempt opts in
      let* ts := createTimeouts k (S attempt) opts in
      ret (t :: ts)
  end.

Definition timeouts (opts : RetryOptions) : M (list Z) :=
  if maxTimeout opts <? minTimeout opts
  then throw (mkError KError "minTimeout is greater than maxTimeout")
  else
    let* ts := createTimeouts (default 10%nat (retries opts)) 0 opts in
    ret (merge_sort Z.le ts).

Definition networkErrorMessages : list string :=
  [ "network error"; "Failed to fetch";
    "NetworkError when attempting to fetch resource.";
    "The Internet connection appears to be offline.";
    "Load failed"; "Network request failed"; "fetch failed"; "terminated" ].

(** [Load failed] counts only on an error without [stack]; an error made
    in Node carries one. *)
Definition isNetworkError (e : JsError) : bool :=
  match kind e with
  | KTypeError =>
      if String.eqb (message e) "Load failed" then false
      else existsb (String.eqb (message e)) networkErrorMessages
  | _ => false
  end.

(** A [TypeError] that is no network error ends the operation. *)
Definition abortsRetry (e : JsError) : bool :=
  match kind e with
  | KTypeError => negb (isNetworkError e)
  | _ => false
  end.

Definition countMessage (msg : string) (errors : list JsError) : nat :=
  length (List.filter (fun e => String.eqb (message e) msg) errors).

Fixpoint mainErrorFrom (seen rest : list JsError)
  (best : option JsError) (bestCount : nat) : option JsError :=
  match rest with
  | [] => best
  | e :: r =>
      let count := S (countMessage (message e) seen) in
      if (bestCount <=? count)%nat
      then mainErrorFrom (seen ++ [e]) r (Some e) count
      else mainErrorFrom (seen ++ [e]) r best bestCount
  end.

Definition mainError (errors : list JsError) : option JsError :=
  mainErrorFrom [] errors None 0.

(** One run of [input] per round; [ts] holds the delays still unused
    and [errors] the rejections so far. *)
Fixpoint retryLoop {A} (input : nat -> M A) (ts : list Z)
  (attemptNumber : nat) (errors : list JsError) : M A :=
  fun w =>
    match input attemptNumber w with
    | (Ok a, w1) => (Ok a, w1)
    | (Throw e, w1) =>
        if abortsRetry e then (Throw e, w1)
        else
          let errors' := errors ++ [e] in
          match ts with
          | [] => (Throw (default e (mainError errors')), w1)
          | t :: ts' =>
              match sleep t w1 with
              | (_, w2) => retryLoop input ts' (S attemptNumber) errors' w2
              end
          end
    end.

Definition pRetry {A} (input : nat -> M A) (opts : RetryOptions) : M A :=
  let* ts := timeouts opts in
  retryLoop input ts 1 [].

(** *** [tatumRpc] *)

Definition RETRY : RetryOptions :=
  {| retries := None; factor := 2; minTimeout := 500; maxTimeout := 8000;
     randomize := true |}.

Definition rpcRequest (cfg : Cfg) (method : string) (params : list JsValue)
  : Request :=
  {| url := "https://" +:+ chain cfg +:+ ".gateway.tatum.io";
     contentType := "application/json";
     xApiKey := tatumApiKey cfg;
     body := VObj [ ("jsonrpc", VStr "2.0"); ("id", VNum 1);
                    ("method", VStr method); ("params", VArr params) ] |}.

(** [res.ok]. *)
Definition isOk (status : Z) : bool := (200 <=? status) && (status <=? 299).

(** The function handed to [pRetry]: one HTTP attempt. *)
Definition rpcAttempt (cfg : Cfg) (method : string) (params : list JsValue)
  (attemptNumber : nat) : M JsValue :=
  let* res := fetch (rpcRequest cfg method params) in
  let '(status, json) := res in
  if (status =? 429) || (status =? 403) || (status =? 503)
  then throw (mkError KError ("Rate/Service error " +:+ bigIntToString status))
  else if negb (isOk status)
  then throw (mkError KError
                ("RPC " +:+ method +:+ " failed " +:+ bigIntToString status))
  else
    let* data := liftR json in
    let* err := liftR (getProp data "error") in
    if truthy err
    then
      let* msg := liftR (getProp err "message") in
      throw (mkError KError (toStr (if truthy msg then msg else VStr "RPC error")))
    else liftR (getProp data "result").

Definition tatumRpc (cfg : Cfg) (method : string) (params : list JsValue)
  : M JsValue :=
  pRetry (rpcAttempt cfg method params) RETRY.

(** *** The tools of [createServer] *)

Definition get_block_number (cfg : Cfg) : M ToolResult :=
  let* hex := tatumRpc cfg "eth_blockNumber" [] in
  let* n := liftR (hexToBigInt hex) in
  ret (TextContent
         (VObj [ ("hex", hex); ("decimal", VStr (bigIntToString n)) ]) 2).

Definition get_native_balance (cfg : Cfg) (address : string) : M ToolResult :=
  let* hex := tatumRpc cfg "eth_getBalance" [VStr address; VStr "latest"] in
  let* wei := liftR (hexToBigInt hex) in
  let* ether := liftR (weiToEtherString hex) in
  ret (TextContent
         (VObj [ ("address", VStr address); ("hexWei", hex);
                 ("wei", VStr (bigIntToString wei)); ("ether", VStr ether) ]) 2).

(** [decimals] starts as 18 and is assigned inside the [try]; the
    balance is parsed (line 112) before [BigInt(decimals)] (line 113). *)
Definition get_token_balance (cfg : Cfg) (tokenAddress address : string)
  : M ToolResult :=
  let balCall :=
    VObj [ ("to", VStr tokenAddress);
           ("data", VStr ("0x70a08231" +:+ padStart (stripHexPrefix address) 64 "0")) ] in
  let decCall := VObj [ ("to", VStr tokenAddress); ("data", VStr "0x313ce567") ] in
  let* hexBal := tatumRpc cfg "eth_call" [balCall; VStr "latest"] in
  let* decimals :=
    tryCatch
      (let* hexDec := tatumRpc cfg "eth_call" [decCall; VStr "latest"] in
       let* b := liftR (hexToBigInt hexDec) in
       ret (numberOfBigInt b))
      (fun _ => ret (Finite 18)) in
  match decimals with
  | Finite d =>
      let* rf := liftR (tokenFormatted hexBal d) in
      let '(raw, formatted) := rf in
      ret (TextContent
             (VObj [ ("tokenAddress", VStr tokenAddress); ("address", VStr address);
                     ("hex", hexBal); ("raw", VStr (bigIntToString raw));
                     ("decimals", VNum d); ("formatted", VStr formatted) ]) 2)
  | Infinite negative =>
      let* raw := liftR (hexToBigInt hexBal) in
      throw (notAnInteger negative)
  end.

Definition rpc_call (cfg : Cfg) (method : string) (params : list JsValue)
  : M ToolResult :=
  if negb (bool_decide (method ∈ ALLOW_METHODS))
  then throw (mkError KError "Method not allowed")
  else
    let* result := tatumRpc cfg method params in
    ret (TextContent result 0).

(** [!!full] of an optional boolean. *)
Definition get_block_by_number (cfg : Cfg) (tagOrNumber : string)
  (full : option bool) : M ToolResult :=
  let* block :=
    tatumRpc cfg "eth_getBlockByNumber" [VStr tagOrNumber; VBool (default false full)] in
  ret (TextContent block 2).

Definition get_transaction_by_hash (cfg : Cfg) (hash : string) : M ToolResult :=
  let* tx := tatumRpc cfg "eth_getTransactionByHash" [VStr hash] in
  ret (TextContent tx 2).

Definition get_logs (cfg : Cfg) (fromBlock toBlock address : option string)
  (topics : option (list (option string))) : M ToolResult :=
  let filterObject :=
    VObj [ ("fromBlock", optString fromBlock); ("toBlock", optString toBlock);
           ("address", optString address);
           ("topics",
            match topics with
            | Some l =>
                VArr (map (fun t => match t with
                                    | Some s => VStr s
                                    | None => VNull
                                    end) l)
            | None => VUndefined
            end) ] in
  let* logs := tatumRpc cfg "eth_getLogs" [filterObject] in
  ret (TextContent logs 2).

(** The handler the server runs for a call. *)
Definition callTool (cfg : Cfg) (c : ToolCall) : M ToolResult :=
  match c with
  | GetBlockNumber => get_block_number cfg
  | GetNativeBalance address => get_native_balance cfg address
  | GetTokenBalance tokenAddress address => get_token_balance cfg tokenAddress address
  | GetBlockByNumber tagOrNumber full => get_block_by_number cfg tagOrNumber full
  | GetTransactionByHash hash => get_transaction_by_hash cfg hash
  | GetLogs fromBlock toBlock address topics =>
      get_logs cfg fromBlock toBlock address topics
  | RpcCall method params => rpc_call cfg method params
  end.

End Server.

(** ** Notions the properties are stated with *)

Fixpoint allChars (p : ascii -> bool) (s : string) : bool :=
  match s with
  | EmptyString => true
  | String c r => p c && allChars p r
  end.

Fixpoint lastChar (s : string) : option ascii :=
  match s with
  | EmptyString => None
  | String c EmptyString => Some c
  | String _ r => lastChar r
  end.

Definition isZeroChar (c : ascii) : bool := Ascii.eqb c "0".
Definition notDot (c : ascii) : bool := negb (Ascii.eqb c ".").

(** The text before the first ['.'] and, when there is one, the text
    after it. *)
Fixpoint splitAtDot (s : string) : string * option string :=
  match s with
  | EmptyString => (EmptyString, None)
  | String c r =>
      if Ascii.eqb c "."
      then (EmptyString, Some r)
      else let '(w, f) := splitAtDot r in (String c w, f)
  end.

(** The reading of a formatted amount the round trip of the
    specification uses: whole part times [10^decimals] plus the
    fractional digits read as an integer scaled to [decimals] digits. *)
Definition spec_parseFixed (decimals : nat) (s : string) : option Z :=
  match splitAtDot s with
  | (w, None) =>
      option_map (fun whole => whole * 10 ^ Z.of_nat decimals) (parseNumeral 10 w)
  | (w, Some f) =>
      match parseNumeral 10 w, parseNumeral 10 f with
      | Some whole, Some fr =>
          if (String.length f <=? decimals)%nat
          then Some (whole * 10 ^ Z.of_nat decimals
                     + fr * 10 ^ Z.of_nat (decimals - String.length f))
          else None
      | _, _ => None
      end
  end.

Definition etherStringToWei (s : string) : option Z := spec_parseFixed 18 s.

(** A hexadecimal literal as the gateway returns it: [0x] or [0X] and at
    least one hexadecimal digit; [m] is the magnitude it denotes. *)
Definition isHexDigit (c : ascii) : bool :=
  match digitValue c with
  | Some _ => true
  | None => false
  end.

Fixpoint hexMagnitude (ds : string) (acc : Z) : Z :=
  match ds with
  | EmptyString => acc
  | String c r => hexMagnitude r (16 * acc + default 0 (digitValue c))
  end.

Inductive hexDenotes : string -> Z -> Prop :=
| hexDenotes_lower (ds : string) :
    ds <> EmptyString -> allChars isHexDigit ds = true ->
    hexDenotes (String "0" (String "x" ds)) (hexMagnitude ds 0)
| hexDenotes_upper (ds : string) :
    ds <> EmptyString -> allChars isHexDigit ds = true ->
    hexDenotes (String "0" (String "X" ds)) (hexMagnitude ds 0).

(** The common shape of the two formatters: the text for [raw] with
    [decimals] fractional digits. *)
Definition renderFixed (raw decimals : Z) : string :=
  let base := 10 ^ decimals in
  let fracStr :=
    orElse (stripTrailingZeros
              (padStart (bigIntToString (Z.rem raw base)) (Z.to_nat decimals) "0")) "0" in
  bigIntToString (Z.quot raw base)
  +:+ (if String.eqb fracStr "0" then EmptyString else "." +:+ fracStr).

(** The output has its fractional part trimmed: without a ['.'] it is the
    whole part alone and the remainder is zero; with one, it is the whole
    part, the ['.'] and a text that ends in a character other than ['0'],
    and the remainder is not zero. *)
Definition fractionTrimmed (raw base : Z) (out : string) : Prop :=
  match splitAtDot out with
  | (_, None) => out = bigIntToString (Z.quot raw base) /\ Z.rem raw base = 0
  | (_, Some f) =>
      out = bigIntToString (Z.quot raw base) +:+ "." +:+ f
      /\ Z.rem raw base <> 0
      /\ exists c, lastChar f = Some c /\ c <> "0"%char
  end.

(** A valid hexadecimal string in the words of the specification: [0x]
    and hexadecimal digits, or the bare digits. *)
Definition nonEmpty (s : string) : bool :=
  match s with
  | EmptyString => false
  | _ => true
  end.

Definition spec_isHexString (s : string) : bool :=
  match s with
  | String "0" (String "x" ds) => nonEmpty ds && allChars isHexDigit ds
  | _ => nonEmpty s && allChars isHexDigit s
  end.

(** The magnitude a valid hexadecimal string denotes, prefixed or bare. *)
Definition spec_hexMagnitude (s : string) : Z :=
  hexMagnitude (stripHexPrefix s) 0.

(** The string starts like a binary literal. *)
Definition hasBinaryPrefix (s : string) : bool :=
  match s with
  | String "0" (String ("b" | "B") _) => true
  | _ => false
  end.

(** What one attempt of [tatumRpc] makes of the answer of [fetch]. *)
Definition attemptResult (method : string) (o : FetchOutcome) : result JsValue :=
  match o with
  | FetchFailed e => Throw e
  | Response status json =>
      if (status =? 429) || (status =? 403) || (status =? 503)
      then Throw (mkError KError ("Rate/Service error " +:+ bigIntToString status))
      else if negb (isOk status)
      then Throw (mkError KError
                    ("RPC " +:+ method +:+ " failed " +:+ bigIntToString status))
      else
        bindR json (fun data =>
        bindR (getProp data "error") (fun err =>
        if truthy err
        then bindR (getProp err "message") (fun msg =>
             Throw (mkError KError
                      (toStr (if truthy msg then msg else VStr "RPC error"))))
        else getProp data "result"))
  end.

(** Bodies of the JSON-RPC answers of the specification. *)
Definition rpcSuccess (r : JsValue) : JsValue :=
  VObj [ ("jsonrpc", VStr "2.0"); ("id", VNum 1); ("result", r) ].

Definition rpcErrorBody (msg : string) : JsValue :=
  VObj [ ("error", VObj [ ("message", VStr msg) ]) ].

(** Scripted networks: the same answer to every request, and [k]
    failures followed by successes. *)
Definition always (o : FetchOutcome) (n : nat) (req : Request) : FetchOutcome := o.

Definition failThenSucceed (k : nat) (failure success : FetchOutcome)
  (n : nat) (req : Request) : FetchOutcome :=
  if (n <? k)%nat then failure else success.

Definition noJitter (n : nat) : Q := 0.

Definition exampleCfg : Cfg :=
  {| tatumApiKey := "key"; chain := "arbitrum-one-mainnet" |}.

(** The [method] member of the body of a request. *)
Definition bodyMethod (req : Request) : JsValue :=
  match body req with
  | VObj fields => lookupField "method" fields
  | _ => VUndefined
  end.

(** A request as the server is meant to send it: to the gateway of the
    configured chain, with the configured key, for an allow-listed method. *)
Definition gatewayRequest (cfg : Cfg) (req : Request) : Prop :=
  url req = "https://" +:+ chain cfg +:+ ".gateway.tatum.io"
  /\ contentType req = "application/json"
  /\ xApiKey req = tatumApiKey cfg
  /\ exists m, bodyMethod req = VStr m /\ m ∈ ALLOW_METHODS.

(** A computation that, from any world, only adds requests that satisfy
    [P], at most [n] of them, and delays of at most 8000 ms, fewer than
    it adds requests unless it adds none. *)
Definition addsOnly {A} (P : Request -> Prop) (n : nat) (c : M A) : Prop :=
  forall w, exists l delays,
    sent (snd (c w)) = sent w ++ l
    /\ slept (snd (c w)) = slept w ++ delays
    /\ Forall P l /\ (length l <= n)%nat
    /\ Forall (fun d => d <= 8000) delays /\ (length delays <= length l)%nat.

(** An answer of the network that makes [tatumRpc] try again: a
    rejection of [fetch] that is no TypeError (the FetchError of
    [node-fetch]), a status outside 2xx, a body whose reading raises an
    error that is no TypeError, or a body with a truthy [error] member. *)
Inductive retriedAnswer : FetchOutcome -> Prop :=
| retried_network (e : JsError) :
    kind e <> KTypeError -> retriedAnswer (FetchFailed e)
| retried_status (status : Z) (json : result JsValue) :
    isOk status = false -> retriedAnswer (Response status json)
| retried_body (status : Z) (e : JsError) :
    kind e <> KTypeError -> retriedAnswer (Response status (Throw e))
| retried_error (status : Z) (fields : list (string * JsValue)) :
    truthy (lookupField "error" fields) = true ->
    retriedAnswer (Response status (Ok (VObj fields))).

(** The call data of [balanceOf(address)] as [get_token_balance] builds
    it (line 103). *)
Definition balanceOfData (address : string) : string :=
  "0x70a08231" +:+ padStart (stripHexPrefix address) 64 "0".

(** The request [get_token_balance] sends for the balance. *)
Definition balanceRequest (cfg : Cfg) (tokenAddress address : string) : Request :=
  rpcRequest cfg "eth_call"
    [ VObj [ ("to", VStr tokenAddress); ("data", VStr (balanceOfData address)) ];
      VStr "latest" ].

(** The request [get_token_balance] sends for the decimals. *)
Definition decimalsRequest (cfg : Cfg) (tokenAddress : string) : Request :=
  rpcRequest cfg "eth_call"
    [ VObj [ ("to", VStr tokenAddress); ("data", VStr "0x313ce567") ];
      VStr "latest" ].

(** * Properties *)

(** ** Strings and digits *)

Lemma app_empty_r (s : string) : s +:+ EmptyString = s.
Proof. induction s as [|c s IH]; simpl; [reflexivity | now rewrite IH]. Qed.

Lemma app_assoc_str (a b c : string) : (a +:+ b) +:+ c = a +:+ (b +:+ c).
Proof. induction a as [|x a IH]; simpl; [reflexivity | now rewrite IH]. Qed.

Lemma length_app_str (a b : string) :
  String.length (a +:+ b) = (String.length a + String.length b)%nat.
Proof. induction a as [|x a IH]; simpl; [reflexivity | now rewrite IH]. Qed.

Lemma length_repeatChar (n : nat) (c : ascii) : String.length (repeatChar n c) = n.
Proof. induction n as [|n IH]; simpl; [reflexivity | now rewrite IH]. Qed.

Lemma allChars_app (p : ascii -> bool) (a b : string) :
  allChars p (a +:+ b) = allChars p a && allChars p b.
Proof.
  induction a as [|x a IH]; simpl; [reflexivity |].
  rewrite IH. now rewrite andb_assoc.
Qed.

Lemma allChars_repeatChar (p : ascii -> bool) (n : nat) (c : ascii) :
  p c = true -> allChars p (repeatChar n c) = true.
Proof. intros Hc. induction n as [|n IH]; simpl; [reflexivity | now rewrite Hc, IH]. Qed.

Lemma allChars_impl (p q : ascii -> bool) (s : string) :
  (forall c, p c = true -> q c = true) -> allChars p s = true -> allChars q s = true.
Proof.
  intros Hpq. induction s as [|c s IH]; simpl; [reflexivity |].
  intros H. apply andb_true_iff in H as [H1 H2].
  rewrite (Hpq _ H1). now apply IH.
Qed.

Lemma lastChar_app_cons (a : string) (c : ascii) (b : string) :
  lastChar (a +:+ String c b) = lastChar (String c b).
Proof.
  induction a as [|x a IH]; [reflexivity |].
  change (String x a +:+ String c b) with (String x (a +:+ String c b)).
  destruct (a +:+ String c b) eqn:E.
  - destruct a; discriminate E.
  - cbn [lastChar]. exact IH.
Qed.

(** *** [stripTrailingZeros] *)

Lemma strip_cons (c : ascii) (r : string) :
  stripTrailingZeros (String c r) =
    match stripTrailingZeros r with
    | EmptyString => if Ascii.eqb c "0" then EmptyString else String c EmptyString
    | r' => String c r'
    end.
Proof. reflexivity. Qed.

(** The stripped string followed by the zeros taken off is the string. *)
Lemma strip_decompose (s : string) :
  exists k, s = stripTrailingZeros s +:+ repeatChar k "0"
            /\ String.length s = (String.length (stripTrailingZeros s) + k)%nat.
Proof.
  induction s as [|c r [k [IH1 IH2]]].
  - exists 0%nat. split; reflexivity.
  - rewrite strip_cons. destruct (stripTrailingZeros r) as [|c' r'] eqn:E.
    + destruct (Ascii.eqb c "0") eqn:Hc.
      * apply Ascii.eqb_eq in Hc. subst c. exists (S k). simpl in *.
        split; [now rewrite <- IH1 | now rewrite IH2].
      * exists k. simpl in *. split; [now rewrite <- IH1 | now rewrite IH2].
    + exists k. split.
      * change (String c (String c' r') +:+ repeatChar k "0")
          with (String c (String c' r' +:+ repeatChar k "0")).
        now rewrite <- IH1.
      * simpl in *. now rewrite IH2.
Qed.

(** What is left ends in a character other than ['0']. *)
Lemma strip_last (s : string) :
  stripTrailingZeros s = EmptyString
  \/ exists c, lastChar (stripTrailingZeros s) = Some c /\ c <> "0"%char.
Proof.
  induction s as [|c r IH].
  - now left.
  - rewrite strip_cons. destruct (stripTrailingZeros r) as [|c' r'] eqn:E.
    + destruct (Ascii.eqb c "0") eqn:Hc; [now left | right].
      exists c. split; [reflexivity |]. now apply Ascii.eqb_neq.
    + right. destruct IH as [IH | [x [Hx Hne]]]; [discriminate IH |].
      exists x. split; [| exact Hne]. exact Hx.
Qed.

Lemma strip_empty_zeros (s : string) :
  stripTrailingZeros s = EmptyString -> allChars isZeroChar s = true.
Proof.
  induction s as [|c r IH]; [reflexivity |].
  rewrite strip_cons. destruct (stripTrailingZeros r) eqn:E; [| discriminate].
  destruct (Ascii.eqb c "0") eqn:Hc; [| discriminate].
  intros _. cbn [allChars]. unfold isZeroChar at 1. rewrite Hc. now apply IH.
Qed.

Lemma strip_zeros_empty (s : string) :
  allChars isZeroChar s = true -> stripTrailingZeros s = EmptyString.
Proof.
  induction s as [|c r IH]; [reflexivity |].
  simpl. intros H. apply andb_true_iff in H as [H1 H2].
  rewrite (IH H2). unfold isZeroChar in H1. now rewrite H1.
Qed.

(** *** Decimal digits *)

Lemma digit_cases (d : Z) :
  0 <= d < 10 ->
  d = 0 \/ d = 1 \/ d = 2 \/ d = 3 \/ d = 4 \/ d = 5 \/ d = 6 \/ d = 7 \/ d = 8 \/ d = 9.
Proof. lia. Qed.

Lemma digitValue_digitChar (d : Z) :
  0 <= d < 10 -> digitValue (digitChar d) = Some d.
Proof.
  intros H. destruct (digit_cases d H) as [E|[E|[E|[E|[E|[E|[E|[E|[E|E]]]]]]]]];
    subst d; reflexivity.
Qed.

Lemma isAsciiDigit_digitChar (d : Z) :
  0 <= d < 10 -> isAsciiDigit (digitChar d) = true.
Proof.
  intros H. destruct (digit_cases d H) as [E|[E|[E|[E|[E|[E|[E|[E|[E|E]]]]]]]]];
    subst d; reflexivity.
Qed.

Lemma parseDigits_app (radix : Z) (a b : string) (acc : Z) :
  parseDigits radix (a +:+ b) acc =
    match parseDigits radix a acc with
    | Some v => parseDigits radix b v
    | None => None
    end.
Proof.
  revert acc. induction a as [|c a IH]; intros acc; simpl; [reflexivity |].
  destruct (digitValue c) as [d|]; [| reflexivity].
  destruct (d <? radix); [apply IH | reflexivity].
Qed.

Lemma parseDigits_leading_zeros (k : nat) (s : string) :
  parseDigits 10 (repeatChar k "0" +:+ s) 0 = parseDigits 10 s 0.
Proof. induction k as [|k IH]; simpl; [reflexivity | exact IH]. Qed.

Lemma parseDigits_zeros (k : nat) (acc : Z) :
  parseDigits 10 (repeatChar k "0") acc = Some (acc * 10 ^ Z.of_nat k).
Proof.
  revert acc. induction k as [|k IH]; intros acc.
  - simpl. f_equal. lia.
  - cbn [repeatChar parseDigits]. change (digitValue "0") with (Some 0).
    change (0 <? 10) with true. cbv iota. rewrite IH. f_equal.
    rewrite Nat2Z.inj_succ, Z.pow_succ_r by lia. lia.
Qed.

Lemma parseDigits_all_zeros (s : string) :
  allChars isZeroChar s = true -> parseDigits 10 s 0 = Some 0.
Proof.
  induction s as [|c s IH]; [reflexivity |].
  simpl. intros H. apply andb_true_iff in H as [H1 H2].
  unfold isZeroChar in H1. apply Ascii.eqb_eq in H1. subst c.
  change (digitValue "0") with (Some 0). simpl. now apply IH.
Qed.

Lemma digitsOf_acc (fuel : nat) (n : Z) (acc : string) :
  digitsOf fuel n acc = digitsOf fuel n EmptyString +:+ acc.
Proof.
  revert n acc. induction fuel as [|f IH]; intros n acc; [reflexivity |].
  cbn [digitsOf]. destruct (n <? 10); [reflexivity |].
  rewrite (IH (n / 10) (String _ acc)), (IH (n / 10) (String _ EmptyString)).
  now rewrite app_assoc_str.
Qed.

Lemma digitsOf_length (fuel : nat) (n : Z) (acc : string) :
  (String.length (digitsOf fuel n acc) <= fuel + String.length acc)%nat.
Proof.
  revert n acc. induction fuel as [|f IH]; intros n acc; [simpl; lia |].
  cbn [digitsOf]. destruct (n <? 10); [simpl; lia |].
  specialize (IH (n / 10) (String (digitChar (n mod 10)) acc)). simpl in IH. lia.
Qed.

Lemma digitsOf_nonempty (fuel : nat) (n : Z) (acc : string) :
  digitsOf (S fuel) n acc <> EmptyString.
Proof.
  cbn [digitsOf]. destruct (n <? 10); [discriminate |].
  rewrite digitsOf_acc. destruct (digitsOf fuel (n / 10) EmptyString); discriminate.
Qed.

Lemma digitsOf_allDigits (fuel : nat) (n : Z) (acc : string) :
  allChars isAsciiDigit acc = true ->
  allChars isAsciiDigit (digitsOf fuel n acc) = true.
Proof.
  revert n acc. induction fuel as [|f IH]; intros n acc Hacc; [exact Hacc |].
  assert (Hd : isAsciiDigit (digitChar (n mod 10)) = true).
  { apply isAsciiDigit_digitChar. apply Z.mod_pos_bound. lia. }
  cbn [digitsOf]. destruct (n <? 10).
  - cbn [allChars]. now rewrite Hd, Hacc.
  - apply IH. cbn [allChars]. now rewrite Hd, Hacc.
Qed.

(** More fuel than digits changes nothing. *)
Lemma digitsOf_fuel (f1 f2 : nat) (n : Z) (acc : string) :
  (1 <= f1 <= f2)%nat -> 0 <= n < 10 ^ Z.of_nat f1 ->
  digitsOf f2 n acc = digitsOf f1 n acc.
Proof.
  revert f2 n acc. induction f1 as [|f IH]; intros f2 n acc Hf Hn; [lia |].
  destruct f2 as [|f2]; [lia |].
  cbn [digitsOf]. destruct (n <? 10) eqn:E; [reflexivity |].
  apply Z.ltb_ge in E.
  rewrite Nat2Z.inj_succ, Z.pow_succ_r in Hn by lia.
  assert (f <> 0%nat) by (intros ->; simpl in Hn; lia).
  apply IH; [lia |].
  split; [apply Z.div_pos; lia | apply Z.div_lt_upper_bound; lia].
Qed.

Lemma digitsOf_parse (fuel : nat) (n : Z) :
  0 <= n < 10 ^ Z.of_nat fuel ->
  parseDigits 10 (digitsOf fuel n EmptyString) 0 = Some n.
Proof.
  revert n. induction fuel as [|f IH]; intros n Hn.
  - simpl in *. f_equal. lia.
  - cbn [digitsOf]. destruct (n <? 10) eqn:E.
    + apply Z.ltb_lt in E. cbn [parseDigits].
      rewrite Z.mod_small by lia. rewrite digitValue_digitChar by lia.
      replace (n <? 10) with true by (symmetry; apply Z.ltb_lt; lia).
      f_equal.
    + apply Z.ltb_ge in E.
      rewrite Nat2Z.inj_succ, Z.pow_succ_r in Hn by lia.
      rewrite digitsOf_acc, parseDigits_app, IH.
      * cbn [parseDigits].
        assert (Hm : 0 <= n mod 10 < 10) by (apply Z.mod_pos_bound; lia).
        rewrite digitValue_digitChar by exact Hm.
        replace (n mod 10 <? 10) with true by (symmetry; apply Z.ltb_lt; lia).
        f_equal. pose proof (Z.div_mod n 10). lia.
      * split; [apply Z.div_pos; lia | apply Z.div_lt_upper_bound; lia].
Qed.

Lemma fuel_enough (n : Z) :
  0 <= n -> n < 10 ^ Z.of_nat (S (Z.to_nat (Z.log2 n))).
Proof.
  intros Hn. rewrite Nat2Z.inj_succ, Z2Nat.id by apply Z.log2_nonneg.
  destruct (Z.eq_dec n 0) as [-> | Hne]; [reflexivity |].
  pose proof (Z.log2_spec n ltac:(lia)) as [_ Hlt].
  pose proof (Z.log2_nonneg n) as Hl.
  eapply Z.lt_le_trans; [exact Hlt |].
  apply Z.pow_le_mono_l. lia.
Qed.

Lemma natToString_parse (n : Z) :
  0 <= n -> parseNumeral 10 (natToString n) = Some n.
Proof.
  intros Hn. unfold parseNumeral, natToString.
  pose proof (digitsOf_nonempty (Z.to_nat (Z.log2 n)) n EmptyString) as Hne.
  destruct (digitsOf _ n EmptyString) eqn:E; [congruence |].
  rewrite <- E. apply digitsOf_parse. split; [exact Hn | now apply fuel_enough].
Qed.

Lemma natToString_parseDigits (n : Z) :
  0 <= n -> parseDigits 10 (natToString n) 0 = Some n.
Proof.
  intros Hn. apply digitsOf_parse. split; [exact Hn | now apply fuel_enough].
Qed.

Lemma natToString_allDigits (n : Z) : allChars isAsciiDigit (natToString n) = true.
Proof. now apply digitsOf_allDigits. Qed.

Lemma natToString_nonempty (n : Z) : natToString n <> EmptyString.
Proof. apply digitsOf_nonempty. Qed.

(** A number below [10^k] has at most [k] digits. *)
Lemma natToString_length (n : Z) (k : nat) :
  (1 <= k)%nat -> 0 <= n < 10 ^ Z.of_nat k ->
  (String.length (natToString n) <= k)%nat.
Proof.
  intros Hk Hn. unfold natToString.
  destruct (Nat.le_gt_cases k (S (Z.to_nat (Z.log2 n)))) as [Hle | Hgt].
  - rewrite (digitsOf_fuel k) by first [exact Hn | lia].
    pose proof (digitsOf_length k n EmptyString). simpl in *. lia.
  - pose proof (digitsOf_length (S (Z.to_nat (Z.log2 n))) n EmptyString).
    simpl in *. lia.
Qed.

Lemma digitValue_bound (c : ascii) (d : Z) :
  digitValue c = Some d -> 0 <= d < 16.
Proof.
  unfold digitValue. set (n := Z.of_nat (nat_of_ascii c)).
  repeat match goal with
         | |- context [if ?b then _ else _] => destruct b eqn:?
         end; intros [= <-]; lia.
Qed.

Lemma parseDigits_hex (ds : string) (acc : Z) :
  allChars isHexDigit ds = true ->
  parseDigits 16 ds acc = Some (hexMagnitude ds acc).
Proof.
  revert acc. induction ds as [|c r IH]; intros acc H; [reflexivity |].
  cbn [allChars] in H. apply andb_true_iff in H as [Hc Hr].
  cbn [parseDigits hexMagnitude]. unfold isHexDigit in Hc.
  destruct (digitValue c) as [d|] eqn:E; [| discriminate].
  pose proof (digitValue_bound _ _ E).
  replace (d <? 16) with true by (symmetry; apply Z.ltb_lt; lia).
  rewrite IH by exact Hr. f_equal. f_equal. simpl. lia.
Qed.

Lemma hexMagnitude_nonneg (ds : string) (acc : Z) :
  0 <= acc -> 0 <= hexMagnitude ds acc.
Proof.
  revert acc. induction ds as [|c r IH]; intros acc H; [exact H |].
  cbn [hexMagnitude]. apply IH.
  destruct (digitValue c) as [d|] eqn:E; simpl; [| lia].
  pose proof (digitValue_bound _ _ E). lia.
Qed.

(** *** Splitting at the point *)

Lemma digit_notDot (c : ascii) : isAsciiDigit c = true -> notDot c = true.
Proof.
  unfold isAsciiDigit, notDot. intros H.
  destruct (Ascii.eqb c ".") eqn:E; [| reflexivity].
  apply Ascii.eqb_eq in E. subst c. discriminate H.
Qed.

Lemma bigIntToString_notDot (n : Z) : allChars notDot (bigIntToString n) = true.
Proof.
  unfold bigIntToString. destruct (n <? 0); cbn [allChars];
    rewrite ?(allChars_impl isAsciiDigit notDot _ digit_notDot
                (natToString_allDigits _)); reflexivity.
Qed.

Lemma bigIntToString_nonneg (n : Z) : 0 <= n -> bigIntToString n = natToString n.
Proof.
  intros H. unfold bigIntToString.
  now replace (n <? 0) with false by (symmetry; apply Z.ltb_ge; lia).
Qed.

Lemma splitAtDot_whole (w : string) :
  allChars notDot w = true -> splitAtDot w = (w, None).
Proof.
  induction w as [|c w IH]; [reflexivity |].
  cbn [allChars splitAtDot]. intros H. apply andb_true_iff in H as [Hc Hw].
  unfold notDot in Hc. apply negb_true_iff in Hc. rewrite Hc.
  now rewrite (IH Hw).
Qed.

Lemma splitAtDot_point (w f : string) :
  allChars notDot w = true -> splitAtDot (w +:+ String "." f) = (w, Some f).
Proof.
  induction w as [|c w IH]; [reflexivity |].
  cbn [allChars]. intros H. apply andb_true_iff in H as [Hc Hw].
  change (String c w +:+ String "." f) with (String c (w +:+ String "." f)).
  cbn [splitAtDot]. unfold notDot in Hc. apply negb_true_iff in Hc. rewrite Hc.
  now rewrite (IH Hw).
Qed.

(** *** The shape of a formatted amount *)

Lemma padStart_length (s : string) (n : nat) (c : ascii) :
  (String.length s <= n)%nat -> String.length (padStart s n c) = n.
Proof.
  intros H. unfold padStart. rewrite length_app_str, length_repeatChar. lia.
Qed.

(** The digits of a remainder other than zero are not all ['0']. *)
Lemma bigIntToString_not_zeros (n : Z) :
  n <> 0 -> allChars isZeroChar (bigIntToString n) = false.
Proof.
  intros Hn. unfold bigIntToString. destruct (n <? 0) eqn:E; [reflexivity |].
  apply Z.ltb_ge in E. destruct (allChars isZeroChar (natToString n)) eqn:A; [| reflexivity].
  apply parseDigits_all_zeros in A. rewrite natToString_parseDigits in A by lia.
  congruence.
Qed.

Lemma renderFixed_zero (raw d : Z) :
  Z.rem raw (10 ^ d) = 0 ->
  renderFixed raw d = bigIntToString (Z.quot raw (10 ^ d)).
Proof.
  intros H. unfold renderFixed. cbv zeta. rewrite H.
  rewrite strip_zeros_empty.
  - cbn [orElse]. change (String.eqb "0" "0") with true. cbv iota. apply app_empty_r.
  - unfold padStart. rewrite allChars_app, allChars_repeatChar by reflexivity. reflexivity.
Qed.

Lemma renderFixed_fraction (raw d : Z) :
  Z.rem raw (10 ^ d) <> 0 ->
  let t := stripTrailingZeros
             (padStart (bigIntToString (Z.rem raw (10 ^ d))) (Z.to_nat d) "0") in
  renderFixed raw d = bigIntToString (Z.quot raw (10 ^ d)) +:+ String "." t
  /\ t <> EmptyString
  /\ exists c, lastChar t = Some c /\ c <> "0"%char.
Proof.
  intros H t.
  assert (Ht : t <> EmptyString).
  { intros E. apply strip_empty_zeros in E. unfold padStart in E.
    rewrite allChars_app in E. apply andb_true_iff in E as [_ E].
    rewrite bigIntToString_not_zeros in E by exact H. discriminate E. }
  destruct (strip_last (padStart (bigIntToString (Z.rem raw (10 ^ d))) (Z.to_nat d) "0"))
    as [E | [c [Hc Hne]]]; [contradiction |].
  fold t in Hc. split; [| split; [exact Ht | now exists c]].
  unfold renderFixed. cbv zeta. fold t.
  destruct t as [|x t'] eqn:Et; [contradiction |].
  cbn [orElse]. destruct (String.eqb (String x t') "0") eqn:Q; [| reflexivity].
  apply String.eqb_eq in Q. rewrite Q in Hc. simpl in Hc. congruence.
Qed.

Lemma renderFixed_trimmed (raw d : Z) :
  fractionTrimmed raw (10 ^ d) (renderFixed raw d).
Proof.
  unfold fractionTrimmed.
  destruct (Z.eq_dec (Z.rem raw (10 ^ d)) 0) as [E | E].
  - rewrite (renderFixed_zero _ _ E).
    rewrite splitAtDot_whole by apply bigIntToString_notDot. now split.
  - destruct (renderFixed_fraction _ _ E) as [-> [_ Hlast]].
    rewrite splitAtDot_point by apply bigIntToString_notDot. now repeat split.
Qed.

(** Reading a formatted non-negative amount gives the amount back. *)
Lemma renderFixed_roundtrip (raw d : Z) :
  0 <= raw -> 0 <= d ->
  spec_parseFixed (Z.to_nat d) (renderFixed raw d) = Some raw.
Proof.
  intros Hraw Hd.
  assert (Hbase : 0 < 10 ^ d) by (apply Z.pow_pos_nonneg; lia).
  pose proof (Z.quot_rem' raw (10 ^ d)) as Hqr.
  pose proof (Z.rem_bound_pos raw (10 ^ d) Hraw Hbase) as Hrem.
  assert (Hq : 0 <= Z.quot raw (10 ^ d)) by (apply Z.quot_pos; lia).
  unfold spec_parseFixed. rewrite Z2Nat.id by exact Hd.
  destruct (Z.eq_dec (Z.rem raw (10 ^ d)) 0) as [E | E].
  - rewrite (renderFixed_zero _ _ E).
    rewrite splitAtDot_whole by apply bigIntToString_notDot.
    rewrite bigIntToString_nonneg, natToString_parse by exact Hq.
    simpl. f_equal. lia.
  - destruct (renderFixed_fraction _ _ E) as [-> [Hne _]]. cbv zeta in Hne.
    rewrite splitAtDot_point by apply bigIntToString_notDot.
    rewrite (bigIntToString_nonneg (Z.quot raw (10 ^ d))), natToString_parse by exact Hq.
    rewrite bigIntToString_nonneg in * by lia.
    set (frac := Z.rem raw (10 ^ d)) in *.
    set (p := padStart (natToString frac) (Z.to_nat d) "0") in *.
    assert (Hd1 : (1 <= Z.to_nat d)%nat).
    { destruct (Z.eq_dec d 0) as [-> | ?]; [simpl in Hrem; lia | lia]. }
    assert (Hlen : (String.length (natToString frac) <= Z.to_nat d)%nat).
    { apply natToString_length; [exact Hd1 |]. rewrite Z2Nat.id by exact Hd. lia. }
    assert (Hp : parseDigits 10 p 0 = Some frac).
    { unfold p, padStart. rewrite parseDigits_leading_zeros.
      apply natToString_parseDigits. lia. }
    destruct (strip_decompose p) as [k [Hk1 Hk2]].
    assert (Hpl : String.length p = Z.to_nat d) by (apply padStart_length; exact Hlen).
    rewrite Hpl in Hk2.
    rewrite Hk1, parseDigits_app in Hp.
    destruct (parseDigits 10 (stripTrailingZeros p) 0) as [v|] eqn:Hv; [| discriminate].
    rewrite parseDigits_zeros in Hp. injection Hp as Hp.
    unfold parseNumeral. destruct (stripTrailingZeros p) as [|x t] eqn:Et; [contradiction |].
    rewrite Hv.
    replace (String.length (String x t) <=? Z.to_nat d)%nat with true
      by (symmetry; apply Nat.leb_le; lia).
    f_equal. replace (Z.to_nat d - String.length (String x t))%nat with k by lia.
    lia.
Qed.

(** *** Hexadecimal literals *)

Lemma hexDigit_not_space (c : ascii) : isHexDigit c = true -> isWhiteSpace c = false.
Proof.
  destruct c as [[] [] [] [] [] [] [] []]; intros H; try reflexivity; discriminate H.
Qed.

Lemma trimEnd_no_space (s : string) :
  allChars (fun c => negb (isWhiteSpace c)) s = true -> trimEnd s = s.
Proof.
  induction s as [|c r IH]; [reflexivity |].
  cbn [allChars trimEnd]. intros H. apply andb_true_iff in H as [Hc Hr].
  rewrite (IH Hr). apply negb_true_iff in Hc. rewrite Hc. now destruct r.
Qed.

Lemma hexDigits_no_space (ds : string) :
  allChars isHexDigit ds = true ->
  allChars (fun c => negb (isWhiteSpace c)) ds = true.
Proof.
  apply allChars_impl. intros c H. now rewrite (hexDigit_not_space c H).
Qed.

Lemma stringToBigInt_hex (x : ascii) (ds : string) :
  x = "x"%char \/ x = "X"%char ->
  ds <> EmptyString -> allChars isHexDigit ds = true ->
  stringToBigInt (String "0" (String x ds)) = Ok (hexMagnitude ds 0).
Proof.
  intros Hx Hne Hds. unfold stringToBigInt, trim.
  assert (Ht : trimEnd (trimStart (String "0" (String x ds))) = String "0" (String x ds)).
  { cbn [trimStart]. change (isWhiteSpace "0") with false. cbv iota.
    apply trimEnd_no_space. cbn [allChars].
    rewrite (hexDigits_no_space _ Hds).
    destruct Hx as [-> | ->]; reflexivity. }
  rewrite Ht.
  assert (Hp : parseIntegerLiteral (String "0" (String x ds)) = parseNumeral 16 ds)
    by (destruct Hx as [-> | ->]; reflexivity).
  rewrite Hp. unfold parseNumeral. destruct ds as [|c r]; [contradiction |].
  now rewrite parseDigits_hex.
Qed.

Lemma hexToBigInt_literal (h : string) (m : Z) :
  hexDenotes h m -> hexToBigInt (VStr h) = Ok m /\ 0 <= m.
Proof.
  intros [ds Hne Hds | ds Hne Hds]; (split; [| apply hexMagnitude_nonneg; lia]);
    unfold hexToBigInt, BigInt; apply stringToBigInt_hex; auto.
Qed.

(** *** The two formatters *)

Lemma weiToEtherString_render (hex : JsValue) :
  weiToEtherString hex = bindR (hexToBigInt hex) (fun raw => Ok (renderFixed raw 18)).
Proof. reflexivity. Qed.

Lemma tokenFormatted_render (hex : JsValue) (d : Z) :
  0 <= d ->
  tokenFormatted hex d =
    bindR (hexToBigInt hex) (fun raw => Ok (raw, renderFixed raw d)).
Proof.
  intros Hd. unfold tokenFormatted, bigPow.
  replace (d <? 0) with false by (symmetry; apply Z.ltb_ge; lia).
  reflexivity.
Qed.

(** C1, as the code has it: for every hexadecimal literal [h], written
    [0x] or [0X] and digits, of magnitude [m], the text [weiToEtherString]
    returns for [h] reads back, whole part times 10^18 plus the
    fractional digits scaled to 18 places, as [m]. *)
Theorem weiToEtherString_roundtrip (h : string) (m : Z) :
  hexDenotes h m ->
  exists s, weiToEtherString (VStr h) = Ok s /\ etherStringToWei s = Some m.
Proof.
  intros H. apply hexToBigInt_literal in H as [Hm Hpos].
  exists (renderFixed m 18). split.
  - rewrite weiToEtherString_render, Hm. reflexivity.
  - apply (renderFixed_roundtrip m 18); lia.
Qed.

Lemma weiToEtherString_roundtrip_witness :
  exists s, weiToEtherString (VStr "0x1bc16d674ec80001") = Ok s
            /\ etherStringToWei s = Some 2000000000000000001.
Proof.
  apply (weiToEtherString_roundtrip "0x1bc16d674ec80001" (hexMagnitude "1bc16d674ec80001" 0)).
  apply hexDenotes_lower; [discriminate | reflexivity].
Defined.

(** C6: for every input the parser accepts and every number of decimals,
    the text after the ['.'] of the formatted amount never ends in ['0'],
    and when the fractional digits are all zero the output is the whole
    part alone, without ['.']. *)
Theorem formatted_fraction_trimmed (hex : JsValue) (raw : Z) :
  hexToBigInt hex = Ok raw ->
  (exists s, weiToEtherString hex = Ok s /\ fractionTrimmed raw (10 ^ 18) s)
  /\ (forall decimals, 0 <= decimals ->
      exists s, tokenFormatted hex decimals = Ok (raw, s)
                /\ fractionTrimmed raw (10 ^ decimals) s).
Proof.
  intros H. split.
  - exists (renderFixed raw 18). rewrite weiToEtherString_render, H.
    split; [reflexivity | apply renderFixed_trimmed].
  - intros d Hd. exists (renderFixed raw d). rewrite tokenFormatted_render, H by exact Hd.
    split; [reflexivity | apply renderFixed_trimmed].
Qed.

Lemma formatted_fraction_trimmed_witness :
  (exists s, weiToEtherString (VStr "0x6f05b59d3b20000") = Ok s
             /\ fractionTrimmed 500000000000000000 (10 ^ 18) s)
  /\ (forall decimals, 0 <= decimals ->
      exists s, tokenFormatted (VStr "0x6f05b59d3b20000") decimals
                = Ok (500000000000000000, s)
                /\ fractionTrimmed 500000000000000000 (10 ^ decimals) s).
Proof.
  apply (formatted_fraction_trimmed (VStr "0x6f05b59d3b20000") 500000000000000000).
  vm_compute. reflexivity.
Defined.

(** C7: [weiToEtherString("0x0")] is ["0"] and
    [weiToEtherString("0xde0b6b3a7640000")] is ["1"]. *)
Theorem weiToEtherString_examples :
  weiToEtherString (VStr "0x0") = Ok "0"
  /\ weiToEtherString (VStr "0xde0b6b3a7640000") = Ok "1".
Proof. split; vm_compute; reflexivity. Qed.

(** C10: with 18 decimals the inline formatter of [get_token_balance]
    gives, for every balance, the text [weiToEtherString] gives (and
    throws where it throws). *)
Theorem tokenFormatted_18_weiToEtherString (hexBal : JsValue) :
  bindR (tokenFormatted hexBal 18) (fun rf => Ok (snd rf)) = weiToEtherString hexBal.
Proof.
  unfold tokenFormatted, weiToEtherString.
  destruct (hexToBigInt hexBal) as [raw | e]; reflexivity.
Qed.

(** *** What [hexToBigInt] accepts *)

Lemma digitValue_decimal (c : ascii) (d : Z) :
  digitValue c = Some d -> d < 10 -> isAsciiDigit c = true.
Proof.
  unfold digitValue, isAsciiDigit. set (n := Z.of_nat (nat_of_ascii c)).
  destruct ((48 <=? n) && (n <=? 57)) eqn:E1; [reflexivity |].
  destruct ((97 <=? n) && (n <=? 102)) eqn:E2.
  - intros [= <-] H. apply andb_true_iff in E2 as [E2 _]. apply Z.leb_le in E2. lia.
  - destruct ((65 <=? n) && (n <=? 70)) eqn:E3; [| discriminate].
    intros [= <-] H. apply andb_true_iff in E3 as [E3 _]. apply Z.leb_le in E3. lia.
Qed.

Lemma isAsciiDigit_value (c : ascii) :
  isAsciiDigit c = true -> exists d, digitValue c = Some d /\ 0 <= d < 10.
Proof.
  unfold digitValue, isAsciiDigit. set (n := Z.of_nat (nat_of_ascii c)).
  intros H. rewrite H. exists (n - 48). split; [reflexivity |].
  apply andb_true_iff in H as [H1 H2]. apply Z.leb_le in H1, H2. lia.
Qed.

Lemma digit_isHexDigit (c : ascii) : isAsciiDigit c = true -> isHexDigit c = true.
Proof.
  intros H. destruct (isAsciiDigit_value c H) as [d [E _]].
  unfold isHexDigit. now rewrite E.
Qed.

Lemma parseDigits_decimal (s : string) (acc : Z) :
  allChars isAsciiDigit s = true -> exists v, parseDigits 10 s acc = Some v.
Proof.
  revert acc. induction s as [|c r IH]; intros acc H; [now exists acc |].
  cbn [allChars] in H. apply andb_true_iff in H as [Hc Hr].
  destruct (isAsciiDigit_value c Hc) as [d [E Hd]].
  cbn [parseDigits]. rewrite E.
  replace (d <? 10) with true by (symmetry; apply Z.ltb_lt; lia).
  now apply IH.
Qed.

(** A hexadecimal digit above 9 stops the decimal reading. *)
Lemma parseDigits_letter (s : string) (acc : Z) :
  allChars isHexDigit s = true -> allChars isAsciiDigit s = false ->
  parseDigits 10 s acc = None.
Proof.
  revert acc. induction s as [|c r IH]; intros acc Hh Hd; [discriminate Hd |].
  cbn [allChars] in Hh, Hd. apply andb_true_iff in Hh as [Hc Hr].
  cbn [parseDigits]. unfold isHexDigit in Hc.
  destruct (digitValue c) as [d|] eqn:E; [| reflexivity].
  destruct (d <? 10) eqn:L; [| reflexivity].
  apply Z.ltb_lt in L. rewrite (digitValue_decimal c d E L) in Hd.
  now apply IH.
Qed.

(** On a bare run of hexadecimal digits without binary prefix the
    literal is read in base 10. *)
Lemma parseIntegerLiteral_bare (s : string) :
  s <> EmptyString -> allChars isHexDigit s = true -> hasBinaryPrefix s = false ->
  parseIntegerLiteral s = parseDigits 10 s 0.
Proof.
  intros Hne Hh Hb. destruct s as [|c0 r0]; [contradiction |].
  cbn [allChars] in Hh. apply andb_true_iff in Hh as [H0 Hr].
  destruct (Ascii.eqb c0 "0") eqn:E0.
  - apply Ascii.eqb_eq in E0. subst c0.
    destruct r0 as [|c1 r1]; [reflexivity |].
    cbn [allChars] in Hr. apply andb_true_iff in Hr as [H1 _].
    destruct c1 as [[] [] [] [] [] [] [] []];
      first [discriminate H1 | discriminate Hb | reflexivity].
  - destruct c0 as [[] [] [] [] [] [] [] []];
      first [discriminate H0 | discriminate E0 | reflexivity].
Qed.

Lemma stringToBigInt_bare (s : string) :
  s <> EmptyString -> allChars isHexDigit s = true -> hasBinaryPrefix s = false ->
  stringToBigInt s =
    match parseDigits 10 s 0 with
    | Some n => Ok n
    | None => Throw (cannotConvert s)
    end.
Proof.
  intros Hne Hh Hb. unfold stringToBigInt, trim.
  assert (Ht : trimEnd (trimStart s) = s).
  { destruct s as [|c r]; [contradiction |].
    cbn [trimStart]. cbn [allChars] in Hh. apply andb_true_iff in Hh as [Hc Hr].
    rewrite (hexDigit_not_space c Hc).
    apply trimEnd_no_space. cbn [allChars].
    now rewrite (hexDigit_not_space c Hc), (hexDigits_no_space _ Hr). }
  now rewrite Ht, parseIntegerLiteral_bare.
Qed.

Lemma decimal_no_binary_prefix (s : string) :
  allChars isAsciiDigit s = true -> hasBinaryPrefix s = false.
Proof.
  destruct s as [|c0 [|c1 r]]; try reflexivity.
  - intros _. destruct c0 as [[] [] [] [] [] [] [] []]; reflexivity.
  - cbn [allChars]. intros H. apply andb_true_iff in H as [_ H].
    apply andb_true_iff in H as [H1 _].
    destruct c0 as [[] [] [] [] [] [] [] []]; try reflexivity;
      destruct c1 as [[] [] [] [] [] [] [] []]; first [reflexivity | discriminate H1].
Qed.

(** C8, as the code has it: a [0x] or [0X] literal is accepted and gives
    its non-negative magnitude, of any size; a bare run of decimal digits
    is accepted and read in base 10; a bare run of hexadecimal digits
    with a letter among them, unless it starts like a binary literal,
    raises the SyntaxError of [BigInt]. *)
Theorem hexToBigInt_accepts :
  (forall h m, hexDenotes h m -> hexToBigInt (VStr h) = Ok m /\ 0 <= m)
  /\ (forall s, s <> EmptyString -> allChars isAsciiDigit s = true ->
      exists n, parseDigits 10 s 0 = Some n /\ hexToBigInt (VStr s) = Ok n)
  /\ (forall s, allChars isHexDigit s = true -> allChars isAsciiDigit s = false ->
      hasBinaryPrefix s = false ->
      hexToBigInt (VStr s) = Throw (cannotConvert s)).
Proof.
  split; [exact hexToBigInt_literal | split].
  - intros s Hne Hd. destruct (parseDigits_decimal s 0 Hd) as [n Hn].
    exists n. split; [exact Hn |].
    unfold hexToBigInt, BigInt. rewrite stringToBigInt_bare, Hn; auto.
    + apply (allChars_impl isAsciiDigit isHexDigit); [exact digit_isHexDigit | exact Hd].
    + now apply decimal_no_binary_prefix.
  - intros s Hh Hd Hb. unfold hexToBigInt, BigInt.
    assert (Hne : s <> EmptyString) by (intros ->; discriminate Hd).
    now rewrite stringToBigInt_bare, parseDigits_letter.
Qed.

Lemma hexToBigInt_accepts_witness :
  (hexToBigInt (VStr "0xff") = Ok 255 /\ 0 <= 255)
  /\ (exists n, parseDigits 10 "10" 0 = Some n /\ hexToBigInt (VStr "10") = Ok n)
  /\ hexToBigInt (VStr "ff") = Throw (cannotConvert "ff").
Proof.
  destruct hexToBigInt_accepts as [Hx [Hd Hl]].
  split; [| split].
  - apply (Hx "0xff" 255).
    apply (hexDenotes_lower "ff"); [discriminate | reflexivity].
  - apply (Hd "10"); [discriminate | reflexivity].
  - apply (Hl "ff"); reflexivity.
Defined.

(** C8 as stated fails: the bare hexadecimal string ["ff"] is valid in
    the words of the specification and is rejected, the bare ["10"] is
    read as ten, and ["-5"], which is no hexadecimal string, is accepted. *)
Lemma hexToBigInt_bare_hex_rejected :
  spec_isHexString "ff" = true
  /\ hexToBigInt (VStr "ff") = Throw (cannotConvert "ff")
  /\ spec_isHexString "10" = true
  /\ hexToBigInt (VStr "10") = Ok 10
  /\ spec_isHexString "-5" = false
  /\ hexToBigInt (VStr "-5") = Ok (-5).
Proof. repeat split; vm_compute; reflexivity. Qed.

(** ** The retry loop *)

Lemma countMessage_same (e : JsError) (n : nat) :
  countMessage (message e) (replicate n e) = n.
Proof.
  unfold countMessage. induction n as [|n IH]; [reflexivity |].
  cbn [replicate List.filter]. rewrite String.eqb_refl. cbn [length]. now rewrite IH.
Qed.

Lemma mainErrorFrom_same (e : JsError) (n m : nat) (best : option JsError) (bestCount : nat) :
  (bestCount <= S m)%nat ->
  mainErrorFrom (replicate m e) (replicate (S n) e) best bestCount = Some e.
Proof.
  revert m best bestCount. induction n as [|n IH]; intros m best bc Hbc.
  - cbn [replicate mainErrorFrom]. rewrite countMessage_same.
    now replace (bc <=? S m)%nat with true by (symmetry; apply Nat.leb_le; lia).
  - change (replicate (S (S n)) e) with (e :: replicate (S n) e).
    cbn [mainErrorFrom]. rewrite countMessage_same.
    replace (bc <=? S m)%nat with true by (symmetry; apply Nat.leb_le; lia).
    replace (replicate m e ++ [e]) with (replicate (S m) e).
    + apply IH. lia.
    + rewrite replicate_S_end. reflexivity.
Qed.

(** When every attempt failed alike, the error reported is that one. *)
Lemma mainError_same (e : JsError) (n : nat) : mainError (replicate (S n) e) = Some e.
Proof. apply (mainErrorFrom_same e n 0 None 0). lia. Qed.

Lemma Sorted_take {A} (R : A -> A -> Prop) (l : list A) (k : nat) :
  Sorted R l -> Sorted R (take k l).
Proof.
  intros H. revert k. induction H as [|x l Hs IH Hd]; intros k.
  - destruct k; constructor.
  - destruct k as [|k]; [constructor |].
    cbn [take]. constructor; [apply IH |].
    destruct Hd as [|y l' Hy]; destruct k; constructor. exact Hy.
Qed.

Section RetryProperties.

Variable transport : nat -> Request -> FetchOutcome.
Variable random : nat -> Q.
Variable cfg : Cfg.
Variable method : string.
Variable params : list JsValue.

Local Abbreviation req := (rpcRequest cfg method params).
Local Abbreviation attempt := (rpcAttempt transport cfg method params).
(** The outcome of the attempt that sends the [n]-th request. *)
Local Abbreviation outcome n := (attemptResult method (transport n req)).

Lemma rpcAttempt_run (attemptNumber : nat) (w : World) :
  attempt attemptNumber w = (outcome (length (sent w)), logRequest req w).
Proof.
  unfold rpcAttempt, bind, fetch, attemptResult.
  destruct (transport (length (sent w)) req) as [e | status json]; [reflexivity |].
  destruct ((status =? 429) || (status =? 403) || (status =? 503)); [reflexivity |].
  destruct (negb (isOk status)); [reflexivity |].
  unfold liftR, throw, bindR.
  destruct json as [data | e]; [| reflexivity].
  destruct (getProp data "error") as [err | e]; [| reflexivity].
  destruct (truthy err); [| reflexivity].
  destruct (getProp err "message"); reflexivity.
Qed.

Lemma retryLoop_unfold {A} (input : nat -> M A) (ts : list Z)
  (attemptNumber : nat) (errors : list JsError) (w : World) :
  retryLoop input ts attemptNumber errors w =
    match input attemptNumber w with
    | (Ok a, w1) => (Ok a, w1)
    | (Throw e, w1) =>
        if abortsRetry e then (Throw e, w1)
        else
          match ts with
          | [] => (Throw (default e (mainError (errors ++ [e]))), w1)
          | t :: ts' =>
              retryLoop input ts' (S attemptNumber) (errors ++ [e]) (logSleep t w1)
          end
    end.
Proof. destruct ts; reflexivity. Qed.

(** [k] failures that may be retried and then a success: the loop
    returns the success after [k + 1] requests and the first [k] delays. *)
Lemma retryLoop_recovers (k : nat) :
  forall (ts : list Z) (attemptNumber : nat) (errors : list JsError)
         (w : World) (r : JsValue),
    (k <= length ts)%nat ->
    (forall i, (i < k)%nat ->
       exists e, outcome (length (sent w) + i)%nat = Throw e /\ abortsRetry e = false) ->
    outcome (length (sent w) + k)%nat = Ok r ->
    retryLoop attempt ts attemptNumber errors w =
      (Ok r, {| sent := sent w ++ replicate (S k) req;
                slept := slept w ++ take k ts;
                drawn := drawn w |}).
Proof.
  induction k as [|k IH]; intros ts att errors w r Hk Hfail Hok.
  - rewrite retryLoop_unfold, rpcAttempt_run.
    rewrite Nat.add_0_r in Hok. rewrite Hok.
    unfold logRequest. cbn [take replicate]. now rewrite app_nil_r.
  - destruct ts as [|t ts]; [simpl in Hk; lia |].
    rewrite retryLoop_unfold, rpcAttempt_run.
    destruct (Hfail 0%nat ltac:(lia)) as [e [He Ha]].
    rewrite Nat.add_0_r in He. rewrite He, Ha.
    rewrite (IH ts (S att) (errors ++ [e]) (logSleep t (logRequest req w)) r).
    + cbn [logSleep logRequest sent slept drawn take].
      f_equal. f_equal; rewrite <- app_assoc; reflexivity.
    + simpl in Hk. lia.
    + intros i Hi. cbn [logSleep logRequest sent]. rewrite length_app. cbn [length].
      replace (length (sent w) + 1 + i)%nat with (length (sent w) + S i)%nat by lia.
      apply Hfail. lia.
    + cbn [logSleep logRequest sent]. rewrite length_app. cbn [length].
      replace (length (sent w) + 1 + k)%nat with (length (sent w) + S k)%nat by lia.
      exact Hok.
Qed.

(** The same failure on every attempt: the loop uses every delay and
    gives up with that failure after one request more than delays. *)
Lemma retryLoop_exhausts (e : JsError) :
  abortsRetry e = false ->
  forall (ts : list Z) (attemptNumber n : nat) (w : World),
    (forall i, (i <= length ts)%nat -> outcome (length (sent w) + i)%nat = Throw e) ->
    retryLoop attempt ts attemptNumber (replicate n e) w =
      (Throw e, {| sent := sent w ++ replicate (S (length ts)) req;
                   slept := slept w ++ ts;
                   drawn := drawn w |}).
Proof.
  intros Ha ts. induction ts as [|t ts IH]; intros att n w Hfail.
  - rewrite retryLoop_unfold, rpcAttempt_run.
    specialize (Hfail 0%nat ltac:(simpl; lia)). rewrite Nat.add_0_r in Hfail.
    rewrite Hfail, Ha. rewrite <- replicate_S_end, mainError_same.
    unfold logRequest. cbn [default length replicate]. now rewrite app_nil_r.
  - rewrite retryLoop_unfold, rpcAttempt_run.
    pose proof (Hfail 0%nat ltac:(simpl; lia)) as H0. rewrite Nat.add_0_r in H0.
    rewrite H0, Ha. rewrite <- replicate_S_end.
    rewrite (IH (S att) (S n) (logSleep t (logRequest req w))).
    + cbn [logSleep logRequest sent slept drawn length].
      f_equal. f_equal; rewrite <- app_assoc; reflexivity.
    + intros i Hi. cbn [logSleep logRequest sent]. rewrite length_app. cbn [length].
      replace (length (sent w) + 1 + i)%nat with (length (sent w) + S i)%nat by lia.
      apply Hfail. simpl. lia.
Qed.

(** Whatever the network answers, the loop sends the one request, at
    least once and at most once more than it has delays. *)
Lemma retryLoop_sends (ts : list Z) :
  forall (attemptNumber : nat) (errors : list JsError) (w : World),
  exists n, (1 <= n <= S (length ts))%nat
            /\ sent (snd (retryLoop attempt ts attemptNumber errors w))
               = sent w ++ replicate n req.
Proof.
  induction ts as [|t ts IH]; intros att errors w;
    rewrite retryLoop_unfold, rpcAttempt_run;
    destruct (outcome (length (sent w))) as [r | e];
    try (exists 1%nat; split; [simpl; lia | reflexivity]);
    destruct (abortsRetry e);
    try (exists 1%nat; split; [simpl; lia | reflexivity]).
  destruct (IH (S att) (errors ++ [e]) (logSleep t (logRequest req w))) as [n [Hn Hs]].
  exists (S n). split; [simpl; lia |].
  rewrite Hs. cbn [logSleep logRequest sent replicate].
  now rewrite <- app_assoc.
Qed.

(** *** The delays of [RETRY] *)

Lemma createTimeout_RETRY (attempt' : nat) (w : World) :
  exists t, createTimeout random attempt' RETRY w = (Ok t, logDraw w) /\ t <= 8000.
Proof.
  eexists. split; [reflexivity |]. cbn [maxTimeout RETRY]. apply Z.le_min_r.
Qed.

Lemma createTimeouts_RETRY (n : nat) :
  forall (attempt' : nat) (w : World),
  exists ts,
    createTimeouts random n attempt' RETRY w =
      (Ok ts, {| sent := sent w; slept := slept w; drawn := (n + drawn w)%nat |})
    /\ length ts = n /\ Forall (fun t => t <= 8000) ts.
Proof.
  induction n as [|n IH]; intros a w.
  - exists []. destruct w. repeat split; constructor.
  - destruct (createTimeout_RETRY a w) as [t [Ht Hb]].
    destruct (IH (S a) (logDraw w)) as [ts [Hts [Hl Hf]]].
    exists (t :: ts). split; [| split; [simpl; now rewrite Hl | now constructor]].
    cbn [createTimeouts]. unfold bind at 1. rewrite Ht.
    unfold bind at 1. rewrite Hts. unfold ret. cbn [logDraw sent slept drawn].
    replace (n + S (drawn w))%nat with (S n + drawn w)%nat by lia. reflexivity.
Qed.

(** Ten delays, in ascending order, none above [maxTimeout]. *)
Lemma timeouts_RETRY (w : World) :
  exists ts,
    timeouts random RETRY w =
      (Ok ts, {| sent := sent w; slept := slept w; drawn := (10 + drawn w)%nat |})
    /\ length ts = 10%nat /\ Sorted Z.le ts /\ Forall (fun t => t <= 8000) ts.
Proof.
  destruct (createTimeouts_RETRY 10 0 w) as [ts [Hts [Hl Hf]]].
  exists (merge_sort Z.le ts). split; [| split; [| split]].
  - unfold timeouts. cbn [maxTimeout minTimeout retries RETRY default].
    change (8000 <? 500) with false. cbv iota.
    unfold bind. rewrite Hts. reflexivity.
  - rewrite <- Hl. apply Permutation_length, merge_sort_Permutation.
  - apply Sorted_merge_sort. apply _.
  - rewrite Forall_forall in Hf |- *. intros t Ht. apply Hf.
    apply list_elem_of_In. rewrite <- (merge_sort_Permutation Z.le ts).
    now apply list_elem_of_In.
Qed.

End RetryProperties.

(** ** [tatumRpc] *)

Lemma isOk_not_retried (status : Z) :
  isOk status = true ->
  (status =? 429) || (status =? 403) || (status =? 503) = false.
Proof.
  unfold isOk. intros H. apply andb_true_iff in H as [H1 H2].
  apply Z.leb_le in H1, H2.
  repeat (apply orb_false_iff; split); apply Z.eqb_neq; lia.
Qed.

Lemma outcome_retried_status (method : string) (status : Z) (json : result JsValue) :
  status = 429 \/ status = 403 \/ status = 503 ->
  attemptResult method (Response status json) =
    Throw (mkError KError ("Rate/Service error " +:+ bigIntToString status)).
Proof. intros [-> | [-> | ->]]; reflexivity. Qed.

Lemma outcome_failed_status (method : string) (status : Z) (json : result JsValue) :
  isOk status = false -> status <> 429 -> status <> 403 -> status <> 503 ->
  attemptResult method (Response status json) =
    Throw (mkError KError
             ("RPC " +:+ method +:+ " failed " +:+ bigIntToString status)).
Proof.
  intros Hok H1 H2 H3. unfold attemptResult.
  apply Z.eqb_neq in H1, H2, H3. now rewrite H1, H2, H3, Hok.
Qed.

Lemma outcome_error_body (method : string) (status : Z) (msg : string) :
  isOk status = true -> msg <> EmptyString ->
  attemptResult method (Response status (Ok (rpcErrorBody msg))) =
    Throw (mkError KError msg).
Proof.
  intros Hok Hmsg. unfold attemptResult.
  rewrite (isOk_not_retried _ Hok), Hok.
  cbn. destruct msg; [contradiction | reflexivity].
Qed.

Lemma outcome_success (method : string) (status : Z) (r : JsValue) :
  isOk status = true ->
  attemptResult method (Response status (Ok (rpcSuccess r))) = Ok r.
Proof.
  intros Hok. unfold attemptResult. now rewrite (isOk_not_retried _ Hok), Hok.
Qed.

Section TatumRpcProperties.

Variable transport : nat -> Request -> FetchOutcome.
Variable random : nat -> Q.
Variable cfg : Cfg.
Variable method : string.
Variable params : list JsValue.

Local Abbreviation req := (rpcRequest cfg method params).
Local Abbreviation outcome n := (attemptResult method (transport n req)).

Lemma tatumRpc_unfold (w : World) :
  tatumRpc transport random cfg method params w =
    match timeouts random RETRY w with
    | (Ok ts, w') => retryLoop (rpcAttempt transport cfg method params) ts 1 [] w'
    | (Throw e, w') => (Throw e, w')
    end.
Proof. reflexivity. Qed.

(** A failure that may be retried and that every attempt meets: the
    call gives up with it after the first attempt and ten retries. *)
Lemma tatumRpc_persistent_failure (e : JsError) (w : World) :
  abortsRetry e = false ->
  (forall i, (i <= 10)%nat -> outcome (length (sent w) + i)%nat = Throw e) ->
  exists delays,
    tatumRpc transport random cfg method params w =
      (Throw e, {| sent := sent w ++ replicate 11 req;
                   slept := slept w ++ delays;
                   drawn := (10 + drawn w)%nat |})
    /\ length delays = 10%nat /\ Sorted Z.le delays
    /\ Forall (fun d => d <= 8000) delays.
Proof.
  intros Ha Hfail. destruct (timeouts_RETRY random w) as [ts [Hts [Hl [Hs Hf]]]].
  exists ts. split; [| now repeat split].
  rewrite tatumRpc_unfold, Hts.
  rewrite (retryLoop_exhausts transport cfg method params e Ha ts 1 0).
  - cbn [sent slept drawn]. now rewrite Hl.
  - intros i Hi. apply Hfail. cbn [sent]. lia.
Qed.

(** Every call sends between 1 and 11 requests, all of them the request
    for its method and parameters. *)
Lemma tatumRpc_sends (w : World) :
  exists n, (1 <= n <= 11)%nat
            /\ sent (snd (tatumRpc transport random cfg method params w))
               = sent w ++ replicate n req.
Proof.
  destruct (timeouts_RETRY random w) as [ts [Hts [Hl _]]].
  rewrite tatumRpc_unfold, Hts.
  destruct (retryLoop_sends transport cfg method params ts 1 []
              {| sent := sent w; slept := slept w; drawn := (10 + drawn w)%nat |})
    as [n [Hn Hs]].
  exists n. split; [lia | exact Hs].
Qed.

(** C2, as the code has it: when every attempt gets HTTP 200 with the
    body [{"error":{"message":msg}}], the call raises an error with the
    message [msg] after 11 HTTP attempts, the first and the ten retries
    of [p-retry]. *)
Theorem tatumRpc_application_error (msg : string) (w : World) :
  msg <> EmptyString ->
  (forall i, (i <= 10)%nat ->
     transport (length (sent w) + i)%nat req = Response 200 (Ok (rpcErrorBody msg))) ->
  exists w',
    tatumRpc transport random cfg method params w = (Throw (mkError KError msg), w')
    /\ sent w' = sent w ++ replicate 11 req.
Proof.
  intros Hmsg Hscript.
  destruct (tatumRpc_persistent_failure (mkError KError msg) w) as [delays [H _]].
  - reflexivity.
  - intros i Hi. rewrite (Hscript i Hi). now apply outcome_error_body.
  - eexists. split; [exact H | reflexivity].
Qed.

(** C3, as the code has it: when every attempt gets an HTTP status that
    is neither 2xx nor 429, 403 or 503, the call raises an error whose
    message, [RPC <method> failed <status>], holds the method name and
    the status, after 11 HTTP attempts. *)
Theorem tatumRpc_http_failure (status : Z) (w : World) :
  isOk status = false -> status <> 429 -> status <> 403 -> status <> 503 ->
  (forall i, (i <= 10)%nat ->
     exists json, transport (length (sent w) + i)%nat req = Response status json) ->
  exists w',
    tatumRpc transport random cfg method params w =
      (Throw (mkError KError
                ("RPC " +:+ method +:+ " failed " +:+ bigIntToString status)), w')
    /\ sent w' = sent w ++ replicate 11 req.
Proof.
  intros Hok H1 H2 H3 Hscript.
  destruct (tatumRpc_persistent_failure
              (mkError KError
                 ("RPC " +:+ method +:+ " failed " +:+ bigIntToString status)) w)
    as [delays [H _]].
  - reflexivity.
  - intros i Hi. destruct (Hscript i Hi) as [json ->].
    now apply outcome_failed_status.
  - eexists. split; [exact H | reflexivity].
Qed.

(** C4, as the code has it: for every [k] up to the ten retries, when
    the first [k] attempts get status 429 and the next one a 2xx answer
    with a result, the call returns that result after [k + 1] HTTP
    attempts; the [k] delays between them are in ascending order and
    none is above 8000 ms. *)
Theorem tatumRpc_rate_limited_then_ok (k : nat) (status : Z) (r : JsValue) (w : World) :
  (k <= 10)%nat ->
  (forall i, (i < k)%nat ->
     exists json, transport (length (sent w) + i)%nat req = Response 429 json) ->
  isOk status = true ->
  transport (length (sent w) + k)%nat req = Response status (Ok (rpcSuccess r)) ->
  exists delays w',
    tatumRpc transport random cfg method params w = (Ok r, w')
    /\ sent w' = sent w ++ replicate (S k) req
    /\ slept w' = slept w ++ delays
    /\ length delays = k
    /\ Sorted Z.le delays
    /\ Forall (fun d => d <= 8000) delays.
Proof.
  intros Hk Hfail Hok Hsucc.
  destruct (timeouts_RETRY random w) as [ts [Hts [Hl [Hs Hf]]]].
  exists (take k ts). eexists. split; [| split; [| split; [| split; [| split]]]].
  - rewrite tatumRpc_unfold, Hts.
    apply (retryLoop_recovers transport cfg method params k ts 1 []).
    + lia.
    + intros i Hi. cbn [sent]. destruct (Hfail i Hi) as [json ->].
      eexists. split; [apply outcome_retried_status; now left | reflexivity].
    + cbn [sent]. rewrite Hsucc. now apply outcome_success.
  - reflexivity.
  - reflexivity.
  - rewrite length_take. lia.
  - now apply Sorted_take.
  - now apply Forall_take.
Qed.

(** C5: when every attempt gets status 403, the call ends: it raises
    the error of that status after 11 HTTP attempts, the first and the
    ten retries, and 10 delays. *)
Theorem tatumRpc_forbidden_gives_up (w : World) :
  (forall i, exists json,
     transport (length (sent w) + i)%nat req = Response 403 json) ->
  exists w',
    tatumRpc transport random cfg method params w =
      (Throw (mkError KError "Rate/Service error 403"), w')
    /\ sent w' = sent w ++ replicate 11 req
    /\ length (slept w') = (length (slept w) + 10)%nat.
Proof.
  intros Hscript.
  destruct (tatumRpc_persistent_failure
              (mkError KError "Rate/Service error 403") w)
    as [delays [H [Hl _]]].
  - reflexivity.
  - intros i _. destruct (Hscript i) as [json ->].
    apply (outcome_retried_status method 403 json). auto.
  - eexists. split; [exact H | split; [reflexivity |]].
    cbn [slept]. rewrite length_app. lia.
Qed.

(** C9: [ALLOW_METHODS] has eleven entries; for a method outside it
    [rpc_call] raises [Method not allowed] and leaves the world as it
    was, so no request is sent; for a method in it [rpc_call] is the call
    of [tatumRpc] with the same method and parameters, its result
    wrapped as the text of the tool, and every request it sends carries
    that method and those parameters. *)
Theorem rpc_call_allow_list (w : World) :
  size ALLOW_METHODS = 11%nat
  /\ (method ∉ ALLOW_METHODS ->
      rpc_call transport random cfg method params w =
        (Throw (mkError KError "Method not allowed"), w))
  /\ (method ∈ ALLOW_METHODS ->
      rpc_call transport random cfg method params w =
        match tatumRpc transport random cfg method params w with
        | (Ok r, w') => (Ok (TextContent r 0), w')
        | (Throw e, w') => (Throw e, w')
        end
      /\ exists n, (1 <= n <= 11)%nat
           /\ sent (snd (rpc_call transport random cfg method params w))
              = sent w ++ replicate n req).
Proof.
  split; [vm_compute; reflexivity | split]; intros H; unfold rpc_call.
  - rewrite bool_decide_eq_false_2 by exact H. reflexivity.
  - rewrite bool_decide_eq_true_2 by exact H. split; [reflexivity |].
    destruct (tatumRpc_sends w) as [n [Hn Hs]]. exists n. split; [exact Hn |].
    cbn [negb]. unfold bind, ret.
    destruct (tatumRpc transport random cfg method params w) as [[r | e] w'];
      exact Hs.
Qed.

End TatumRpcProperties.

(** ** Concrete runs *)

Lemma tatumRpc_application_error_witness :
  exists w',
    tatumRpc (always (Response 200 (Ok (rpcErrorBody "boom")))) noJitter
      exampleCfg "eth_call" [] initialWorld
    = (Throw (mkError KError "boom"), w')
    /\ sent w' = sent initialWorld ++ replicate 11 (rpcRequest exampleCfg "eth_call" []).
Proof.
  apply (tatumRpc_application_error
           (always (Response 200 (Ok (rpcErrorBody "boom")))) noJitter
           exampleCfg "eth_call" [] "boom" initialWorld).
  - discriminate.
  - intros i Hi. reflexivity.
Defined.

(** C2 as stated fails: with the error body on every attempt the call
    makes 11 requests, not one; with the error body on the first attempt
    only, the call returns the result of the second attempt. *)
Lemma tatumRpc_application_error_retried :
  (let out := tatumRpc (always (Response 200 (Ok (rpcErrorBody "boom")))) noJitter
                exampleCfg "eth_call" [] initialWorld in
   fst out = Throw (mkError KError "boom")
   /\ length (sent (snd out)) = 11%nat
   /\ length (sent (snd out)) <> 1%nat)
  /\ (let out := tatumRpc
                   (failThenSucceed 1 (Response 200 (Ok (rpcErrorBody "boom")))
                      (Response 200 (Ok (rpcSuccess (VStr "0x10")))))
                   noJitter exampleCfg "eth_call" [] initialWorld in
      fst out = Ok (VStr "0x10") /\ length (sent (snd out)) = 2%nat).
Proof.
  split; cbv zeta; repeat split; try (vm_compute; reflexivity).
  vm_compute. discriminate.
Qed.

Lemma tatumRpc_http_failure_witness :
  exists w',
    tatumRpc (always (Response 404 (Ok VNull))) noJitter
      exampleCfg "eth_getCode" [] initialWorld
    = (Throw (mkError KError "RPC eth_getCode failed 404"), w')
    /\ sent w' = sent initialWorld ++ replicate 11 (rpcRequest exampleCfg "eth_getCode" []).
Proof.
  apply (tatumRpc_http_failure
           (always (Response 404 (Ok VNull))) noJitter
           exampleCfg "eth_getCode" [] 404 initialWorld).
  - reflexivity.
  - lia.
  - lia.
  - lia.
  - intros i Hi. exists (Ok VNull). reflexivity.
Defined.

(** C3 as stated fails: with status 404 on every attempt the call makes
    11 requests, not one; with status 404 on the first attempt only, the
    call returns the result of the second attempt. *)
Lemma tatumRpc_http_failure_retried :
  (let out := tatumRpc (always (Response 404 (Ok VNull))) noJitter
                exampleCfg "eth_getCode" [] initialWorld in
   fst out = Throw (mkError KError "RPC eth_getCode failed 404")
   /\ length (sent (snd out)) = 11%nat
   /\ length (sent (snd out)) <> 1%nat)
  /\ (let out := tatumRpc
                   (failThenSucceed 1 (Response 404 (Ok VNull))
                      (Response 200 (Ok (rpcSuccess (VStr "0x")))))
                   noJitter exampleCfg "eth_getCode" [] initialWorld in
      fst out = Ok (VStr "0x") /\ length (sent (snd out)) = 2%nat).
Proof.
  split; cbv zeta; repeat split; try (vm_compute; reflexivity).
  vm_compute. discriminate.
Qed.

Lemma tatumRpc_rate_limited_then_ok_witness :
  exists delays w',
    tatumRpc
      (failThenSucceed 2 (Response 429 (Ok VNull))
         (Response 200 (Ok (rpcSuccess (VStr "0x10")))))
      noJitter exampleCfg "eth_blockNumber" [] initialWorld
    = (Ok (VStr "0x10"), w')
    /\ sent w' = sent initialWorld ++ replicate 3 (rpcRequest exampleCfg "eth_blockNumber" [])
    /\ slept w' = slept initialWorld ++ delays
    /\ length delays = 2%nat
    /\ Sorted Z.le delays
    /\ Forall (fun d => d <= 8000) delays.
Proof.
  apply (tatumRpc_rate_limited_then_ok
           (failThenSucceed 2 (Response 429 (Ok VNull))
              (Response 200 (Ok (rpcSuccess (VStr "0x10")))))
           noJitter exampleCfg "eth_blockNumber" [] 2 200 (VStr "0x10") initialWorld).
  - lia.
  - intros i Hi. exists (Ok VNull).
    destruct i as [|[|i]]; [reflexivity | reflexivity | lia].
  - reflexivity.
  - reflexivity.
Defined.

(** C4 as stated fails for [k = 11]: after eleven answers with status
    429 the call has used its ten retries and raises; the success that
    the twelfth request would get is never asked for. *)
Lemma tatumRpc_rate_limited_budget :
  let out := tatumRpc
               (failThenSucceed 11 (Response 429 (Ok VNull))
                  (Response 200 (Ok (rpcSuccess (VStr "0x10")))))
               noJitter exampleCfg "eth_blockNumber" [] initialWorld in
  fst out = Throw (mkError KError "Rate/Service error 429")
  /\ length (sent (snd out)) = 11%nat.
Proof. cbv zeta. split; vm_compute; reflexivity. Qed.

Lemma tatumRpc_forbidden_gives_up_witness :
  exists w',
    tatumRpc (always (Response 403 (Ok VNull))) noJitter
      exampleCfg "eth_gasPrice" [] initialWorld
    = (Throw (mkError KError "Rate/Service error 403"), w')
    /\ sent w' = sent initialWorld ++ replicate 11 (rpcRequest exampleCfg "eth_gasPrice" [])
    /\ length (slept w') = (length (slept initialWorld) + 10)%nat.
Proof.
  apply (tatumRpc_forbidden_gives_up
           (always (Response 403 (Ok VNull))) noJitter
           exampleCfg "eth_gasPrice" [] initialWorld).
  intros i. exists (Ok VNull). reflexivity.
Defined.

Lemma rpc_call_allow_list_witness :
  rpc_call (always (Response 200 (Ok (rpcSuccess (VStr "0xa4b1"))))) noJitter
    exampleCfg "eth_sendRawTransaction" [] initialWorld
  = (Throw (mkError KError "Method not allowed"), initialWorld)
  /\ (rpc_call (always (Response 200 (Ok (rpcSuccess (VStr "0xa4b1"))))) noJitter
        exampleCfg "eth_chainId" [] initialWorld
      = match tatumRpc (always (Response 200 (Ok (rpcSuccess (VStr "0xa4b1")))))
                noJitter exampleCfg "eth_chainId" [] initialWorld with
        | (Ok r, w') => (Ok (TextContent r 0), w')
        | (Throw e, w') => (Throw e, w')
        end
      /\ exists n, (1 <= n <= 11)%nat
           /\ sent (snd (rpc_call (always (Response 200 (Ok (rpcSuccess (VStr "0xa4b1")))))
                           noJitter exampleCfg "eth_chainId" [] initialWorld))
              = sent initialWorld ++ replicate n (rpcRequest exampleCfg "eth_chainId" [])).
Proof.
  split.
  - apply (rpc_call_allow_list
             (always (Response 200 (Ok (rpcSuccess (VStr "0xa4b1"))))) noJitter
             exampleCfg "eth_sendRawTransaction" [] initialWorld).
    apply (bool_decide_unpack _). vm_compute. exact I.
  - apply (rpc_call_allow_list
             (always (Response 200 (Ok (rpcSuccess (VStr "0xa4b1"))))) noJitter
             exampleCfg "eth_chainId" [] initialWorld).
    apply (bool_decide_unpack _). vm_compute. exact I.
Defined.

(** * Further properties of [mcp.ts] *)

(** ** [hexToBigInt] and the formatter *)

Lemma digit_not_space (c : ascii) : isAsciiDigit c = true -> isWhiteSpace c = false.
Proof. intros H. apply hexDigit_not_space. now apply digit_isHexDigit. Qed.

Lemma trimStart_blank (s : string) :
  allChars isWhiteSpace s = true -> trimStart s = EmptyString.
Proof.
  induction s as [|c r IH]; [reflexivity |].
  cbn [allChars trimStart]. intros H. apply andb_true_iff in H as [Hc Hr].
  rewrite Hc. now apply IH.
Qed.

Lemma stringToBigInt_natToString (n : Z) :
  0 <= n -> stringToBigInt (natToString n) = Ok n.
Proof.
  intros Hn. rewrite stringToBigInt_bare.
  - now rewrite natToString_parseDigits.
  - apply natToString_nonempty.
  - apply (allChars_impl isAsciiDigit isHexDigit);
      [exact digit_isHexDigit | apply natToString_allDigits].
  - apply decimal_no_binary_prefix, natToString_allDigits.
Qed.

(** X6: [BigInt] reads the decimal text of every bigint, negative ones
    too, back as that bigint. *)
Theorem hexToBigInt_bigIntToString (n : Z) :
  hexToBigInt (VStr (bigIntToString n)) = Ok n.
Proof.
  unfold hexToBigInt, BigInt, bigIntToString. destruct (n <? 0) eqn:E.
  - apply Z.ltb_lt in E. unfold stringToBigInt, trim.
    assert (Ht : trimEnd (trimStart (String "-" (natToString (- n))))
                 = String "-" (natToString (- n))).
    { cbn [trimStart]. change (isWhiteSpace "-") with false. cbv iota.
      apply trimEnd_no_space. cbn [allChars]. change (isWhiteSpace "-") with false.
      cbn [negb andb].
      apply (allChars_impl isAsciiDigit); [| apply natToString_allDigits].
      intros c Hc. now rewrite (digit_not_space c Hc). }
    rewrite Ht.
    change (parseIntegerLiteral (String "-" (natToString (- n))))
      with (option_map Z.opp (parseNumeral 10 (natToString (- n)))).
    rewrite natToString_parse by lia. cbn [option_map]. f_equal. lia.
  - apply Z.ltb_ge in E. now apply stringToBigInt_natToString.
Qed.

(** X7: an empty string, or one of white space only, is read as zero, and
    [weiToEtherString] renders it as ["0"]. *)
Theorem blank_input_is_zero (s : string) :
  allChars isWhiteSpace s = true ->
  hexToBigInt (VStr s) = Ok 0 /\ weiToEtherString (VStr s) = Ok "0".
Proof.
  intros H.
  assert (H0 : hexToBigInt (VStr s) = Ok 0).
  { unfold hexToBigInt, BigInt, stringToBigInt, trim.
    now rewrite (trimStart_blank s H). }
  split; [exact H0 |].
  rewrite weiToEtherString_render, H0. vm_compute. reflexivity.
Qed.

Lemma blank_input_is_zero_witness :
  hexToBigInt (VStr "  ") = Ok 0 /\ weiToEtherString (VStr "  ") = Ok "0".
Proof. apply (blank_input_is_zero "  "). reflexivity. Defined.

Lemma allChars_strip (p : ascii -> bool) (s : string) :
  allChars p s = true -> allChars p (stripTrailingZeros s) = true.
Proof.
  intros H. destruct (strip_decompose s) as [k [Hk _]].
  rewrite Hk, allChars_app in H. now apply andb_true_iff in H as [H _].
Qed.

Lemma strip_length (s : string) :
  (String.length (stripTrailingZeros s) <= String.length s)%nat.
Proof. destruct (strip_decompose s) as [k [_ Hk]]. lia. Qed.

(** X8: for a non-negative amount the formatted text is a decimal
    numeral: a whole part of one or more digits and, when there is a
    ['.'], between 1 and [decimals] digits after it. *)
Theorem tokenFormatted_well_formed (hex : JsValue) (raw decimals : Z) :
  hexToBigInt hex = Ok raw -> 0 <= raw -> 0 <= decimals ->
  exists out,
    tokenFormatted hex decimals = Ok (raw, out)
    /\ match splitAtDot out with
       | (w, None) => w <> EmptyString /\ allChars isAsciiDigit w = true
       | (w, Some f) =>
           w <> EmptyString /\ allChars isAsciiDigit w = true
           /\ allChars isAsciiDigit f = true
           /\ (1 <= String.length f <= Z.to_nat decimals)%nat
       end.
Proof.
  intros Hhex Hraw Hd. exists (renderFixed raw decimals).
  rewrite tokenFormatted_render, Hhex by exact Hd. split; [reflexivity |].
  assert (Hbase : 0 < 10 ^ decimals) by (apply Z.pow_pos_nonneg; lia).
  pose proof (Z.rem_bound_pos raw (10 ^ decimals) Hraw Hbase) as Hrem.
  assert (Hq : 0 <= Z.quot raw (10 ^ decimals)) by (apply Z.quot_pos; lia).
  destruct (Z.eq_dec (Z.rem raw (10 ^ decimals)) 0) as [E | E].
  - rewrite (renderFixed_zero _ _ E).
    rewrite splitAtDot_whole by apply bigIntToString_notDot.
    rewrite bigIntToString_nonneg by exact Hq.
    split; [apply natToString_nonempty | apply natToString_allDigits].
  - destruct (renderFixed_fraction _ _ E) as [-> [Hne _]]. cbv zeta in Hne.
    rewrite splitAtDot_point by apply bigIntToString_notDot.
    rewrite (bigIntToString_nonneg (Z.quot raw (10 ^ decimals))) by exact Hq.
    rewrite bigIntToString_nonneg in * by lia.
    set (frac := Z.rem raw (10 ^ decimals)) in *.
    set (p := padStart (natToString frac) (Z.to_nat decimals) "0") in *.
    assert (Hd1 : (1 <= Z.to_nat decimals)%nat).
    { destruct (Z.eq_dec decimals 0) as [-> | ?]; [simpl in Hrem; lia | lia]. }
    assert (Hlen : (String.length (natToString frac) <= Z.to_nat decimals)%nat).
    { apply natToString_length; [exact Hd1 |]. rewrite Z2Nat.id by exact Hd. lia. }
    assert (Hpl : String.length p = Z.to_nat decimals)
      by (apply padStart_length; exact Hlen).
    assert (Hpd : allChars isAsciiDigit p = true).
    { unfold p, padStart. rewrite allChars_app, allChars_repeatChar by reflexivity.
      apply natToString_allDigits. }
    split; [apply natToString_nonempty |].
    split; [apply natToString_allDigits |].
    split; [now apply allChars_strip |].
    pose proof (strip_length p). split; [| lia].
    destruct (stripTrailingZeros p); [contradiction | simpl; lia].
Qed.

Lemma tokenFormatted_well_formed_witness :
  exists out,
    tokenFormatted (VStr "0x149970") 6 = Ok (1350000, out)
    /\ match splitAtDot out with
       | (w, None) => w <> EmptyString /\ allChars isAsciiDigit w = true
       | (w, Some f) =>
           w <> EmptyString /\ allChars isAsciiDigit w = true
           /\ allChars isAsciiDigit f = true
           /\ (1 <= String.length f <= Z.to_nat 6)%nat
       end.
Proof.
  apply (tokenFormatted_well_formed (VStr "0x149970") 1350000 6).
  - vm_compute. reflexivity.
  - lia.
  - lia.
Defined.

(** X9: for a negative amount that is no multiple of [10^decimals] the
    text after the ['.'] is no digit string: the sign of the remainder
    is printed inside it. *)
Theorem tokenFormatted_negative_fraction (hex : JsValue) (raw decimals : Z) :
  hexToBigInt hex = Ok raw -> raw < 0 -> 0 <= decimals ->
  Z.rem raw (10 ^ decimals) <> 0 ->
  exists out f,
    tokenFormatted hex decimals = Ok (raw, out)
    /\ splitAtDot out = (bigIntToString (Z.quot raw (10 ^ decimals)), Some f)
    /\ allChars isAsciiDigit f = false.
Proof.
  intros Hhex Hraw Hd E.
  destruct (renderFixed_fraction _ _ E) as [Hout _].
  eexists. eexists. rewrite tokenFormatted_render, Hhex by exact Hd.
  split; [reflexivity |]. rewrite Hout.
  split; [apply splitAtDot_point, bigIntToString_notDot |].
  assert (Hrem : Z.rem raw (10 ^ decimals) < 0).
  { pose proof (Z.rem_nonpos raw (10 ^ decimals) ltac:(lia) ltac:(lia)). lia. }
  set (p := padStart (bigIntToString (Z.rem raw (10 ^ decimals))) (Z.to_nat decimals) "0").
  destruct (allChars isAsciiDigit (stripTrailingZeros p)) eqn:A; [| reflexivity].
  assert (Hp : allChars isAsciiDigit p = false).
  { unfold p, padStart, bigIntToString.
    replace (Z.rem raw (10 ^ decimals) <? 0) with true
      by (symmetry; apply Z.ltb_lt; exact Hrem).
    rewrite allChars_app. cbn [allChars]. change (isAsciiDigit "-") with false.
    cbn [andb]. apply andb_false_r. }
  destruct (strip_decompose p) as [k [Hk _]].
  rewrite Hk, allChars_app, A, allChars_repeatChar in Hp by reflexivity.
  discriminate Hp.
Qed.

Lemma tokenFormatted_negative_fraction_witness :
  exists out f,
    tokenFormatted (VStr "-1500000000000000000") 18 = Ok (-1500000000000000000, out)
    /\ splitAtDot out
       = (bigIntToString (Z.quot (-1500000000000000000) (10 ^ 18)), Some f)
    /\ allChars isAsciiDigit f = false.
Proof.
  apply (tokenFormatted_negative_fraction
           (VStr "-1500000000000000000") (-1500000000000000000) 18).
  - vm_compute. reflexivity.
  - lia.
  - lia.
  - vm_compute. discriminate.
Defined.

(** X10: two non-negative amounts that are formatted alike, with the
    same number of decimals, are the same amount. *)
Theorem tokenFormatted_injective (hex1 hex2 : JsValue) (raw1 raw2 decimals : Z) (out : string) :
  0 <= raw1 -> 0 <= raw2 ->
  tokenFormatted hex1 decimals = Ok (raw1, out) ->
  tokenFormatted hex2 decimals = Ok (raw2, out) ->
  raw1 = raw2.
Proof.
  intros H1 H2 E1 E2.
  assert (Hd : 0 <= decimals).
  { destruct (Z.ltb_spec decimals 0) as [Hneg | Hpos]; [| exact Hpos].
    unfold tokenFormatted, bigPow in E1.
    replace (decimals <? 0) with true in E1 by (symmetry; apply Z.ltb_lt; lia).
    destruct (hexToBigInt hex1); discriminate E1. }
  rewrite tokenFormatted_render in E1, E2 by exact Hd.
  destruct (hexToBigInt hex1) as [r1 | e1]; [| discriminate E1].
  destruct (hexToBigInt hex2) as [r2 | e2]; [| discriminate E2].
  cbn [bindR] in E1, E2. injection E1 as -> E1. injection E2 as -> E2.
  pose proof (renderFixed_roundtrip raw1 decimals H1 Hd) as R1.
  pose proof (renderFixed_roundtrip raw2 decimals H2 Hd) as R2.
  rewrite E1 in R1. rewrite E2 in R2. congruence.
Qed.

Lemma tokenFormatted_injective_witness : 1500000 = 1500000.
Proof.
  apply (tokenFormatted_injective (VStr "0x16e360") (VStr "1500000")
           1500000 1500000 6 "1.5").
  - lia.
  - lia.
  - vm_compute. reflexivity.
  - vm_compute. reflexivity.
Defined.

(** X11: with 0 decimals the formatted text is the decimal text of the
    raw amount, whatever its sign. *)
Theorem tokenFormatted_no_decimals (hex : JsValue) (raw : Z) :
  hexToBigInt hex = Ok raw ->
  tokenFormatted hex 0 = Ok (raw, bigIntToString raw).
Proof.
  intros H. rewrite tokenFormatted_render, H by lia. cbn [bindR].
  rewrite renderFixed_zero by (change (10 ^ 0) with 1; apply Z.rem_1_r).
  change (10 ^ 0) with 1. now rewrite Z.quot_1_r.
Qed.

Lemma tokenFormatted_no_decimals_witness :
  tokenFormatted (VStr "0x64") 0 = Ok (100, bigIntToString 100).
Proof. apply (tokenFormatted_no_decimals (VStr "0x64") 100). vm_compute. reflexivity. Defined.

(** ** [tatumRpc] on any network *)

Lemma abortsRetry_other (e : JsError) : kind e <> KTypeError -> abortsRetry e = false.
Proof. unfold abortsRetry. destruct (kind e); [reflexivity | contradiction | ..]; reflexivity. Qed.

Lemma retriedAnswer_outcome (method : string) (o : FetchOutcome) :
  retriedAnswer o ->
  exists e, attemptResult method o = Throw e /\ abortsRetry e = false.
Proof.
  intros H. destruct H as [e He | status json Hs | status e He | status fields Hf];
    try apply abortsRetry_other in He; unfold attemptResult.
  - now exists e.
  - rewrite Hs. destruct ((status =? 429) || (status =? 403) || (status =? 503));
      eexists; split; reflexivity.
  - destruct ((status =? 429) || (status =? 403) || (status =? 503));
      [eexists; split; reflexivity |].
    destruct (negb (isOk status)); [eexists; split; reflexivity |].
    now exists e.
  - destruct ((status =? 429) || (status =? 403) || (status =? 503));
      [eexists; split; reflexivity |].
    destruct (negb (isOk status)); [eexists; split; reflexivity |].
    cbn [bindR getProp]. rewrite Hf.
    destruct (lookupField "error" fields); try discriminate Hf;
      eexists; split; reflexivity.
Qed.

Section TatumRpcOnAnyNetwork.

Variable transport : nat -> Request -> FetchOutcome.
Variable random : nat -> Q.
Variable cfg : Cfg.
Variable method : string.
Variable params : list JsValue.

Local Abbreviation req := (rpcRequest cfg method params).
Local Abbreviation attempt := (rpcAttempt transport cfg method params).
Local Abbreviation outcome n := (attemptResult method (transport n req)).

(** The loop sends the one request [n] times, for some [n] from 1 to one
    more than it has delays, and sleeps the first [n - 1] delays. *)
Lemma retryLoop_effects (ts : list Z) :
  forall (attemptNumber : nat) (errors : list JsError) (w : World),
  exists n, (1 <= n <= S (length ts))%nat
    /\ sent (snd (retryLoop attempt ts attemptNumber errors w))
       = sent w ++ replicate n req
    /\ slept (snd (retryLoop attempt ts attemptNumber errors w))
       = slept w ++ take (n - 1) ts
    /\ drawn (snd (retryLoop attempt ts attemptNumber errors w)) = drawn w.
Proof.
  induction ts as [|t ts IH]; intros att errors w;
    rewrite retryLoop_unfold, rpcAttempt_run;
    destruct (outcome (length (sent w))) as [r | e];
    try (exists 1%nat; cbn [snd logRequest sent slept drawn take replicate Nat.sub];
         rewrite app_nil_r; repeat split; simpl; lia);
    destruct (abortsRetry e);
    try (exists 1%nat; cbn [snd logRequest sent slept drawn take replicate Nat.sub];
         rewrite app_nil_r; repeat split; simpl; lia).
  destruct (IH (S att) (errors ++ [e]) (logSleep t (logRequest req w)))
    as [n [Hn [Hs [Hd Hr]]]].
  exists (S n). split; [simpl; lia |].
  rewrite Hs, Hd, Hr. cbn [logSleep logRequest sent slept drawn replicate].
  replace (S n - 1)%nat with (S (n - 1)) by lia. cbn [take].
  rewrite <- !app_assoc. repeat split.
Qed.

Lemma tatumRpc_effects_any (w : World) :
  exists n delays,
    (1 <= n <= 11)%nat
    /\ sent (snd (tatumRpc transport random cfg method params w))
       = sent w ++ replicate n req
    /\ slept (snd (tatumRpc transport random cfg method params w))
       = slept w ++ delays
    /\ length delays = (n - 1)%nat
    /\ Sorted Z.le delays
    /\ Forall (fun d => d <= 8000) delays
    /\ drawn (snd (tatumRpc transport random cfg method params w))
       = (10 + drawn w)%nat.
Proof.
  destruct (timeouts_RETRY random w) as [ts [Hts [Hl [Hs Hf]]]].
  rewrite tatumRpc_unfold, Hts.
  destruct (retryLoop_effects ts 1 []
              {| sent := sent w; slept := slept w; drawn := (10 + drawn w)%nat |})
    as [n [Hn [H1 [H2 H3]]]].
  exists n, (take (n - 1) ts). rewrite H1, H2, H3. cbn [sent slept drawn].
  repeat split; try lia.
  - rewrite length_take. lia.
  - now apply Sorted_take.
  - now apply Forall_take.
Qed.

(** X1: whatever the network answers and whatever [Math.random] gives,
    a call of [tatumRpc] sends its one request between 1 and 11 times
    and nothing else, sleeps one delay fewer than it sends requests, the
    delays in ascending order and none above 8000 ms, and draws 10
    random numbers. *)
Theorem tatumRpc_effects (w : World) :
  exists n delays,
    (1 <= n <= 11)%nat
    /\ sent (snd (tatumRpc transport random cfg method params w))
       = sent w ++ replicate n req
    /\ slept (snd (tatumRpc transport random cfg method params w))
       = slept w ++ delays
    /\ length delays = (n - 1)%nat
    /\ Sorted Z.le delays
    /\ Forall (fun d => d <= 8000) delays
    /\ drawn (snd (tatumRpc transport random cfg method params w))
       = (10 + drawn w)%nat.
Proof.
  destruct (timeouts_RETRY random w) as [ts [Hts [Hl [Hs Hf]]]].
  rewrite tatumRpc_unfold, Hts.
  destruct (retryLoop_effects ts 1 []
              {| sent := sent w; slept := slept w; drawn := (10 + drawn w)%nat |})
    as [n [Hn [H1 [H2 H3]]]].
  exists n, (take (n - 1) ts). rewrite H1, H2, H3. cbn [sent slept drawn].
  split; [lia |]. split; [reflexivity |]. split; [reflexivity |].
  split; [rewrite length_take; lia |].
  split; [now apply Sorted_take |]. split; [now apply Forall_take | reflexivity].
Qed.

(** [k] answers that are retried and then one that is not a failure. *)
Lemma tatumRpc_recovers (k : nat) (r : JsValue) (w : World) :
  (k <= 10)%nat ->
  (forall i, (i < k)%nat ->
     exists e, outcome (length (sent w) + i)%nat = Throw e /\ abortsRetry e = false) ->
  outcome (length (sent w) + k)%nat = Ok r ->
  exists delays,
    tatumRpc transport random cfg method params w =
      (Ok r, {| sent := sent w ++ replicate (S k) req;
                slept := slept w ++ delays;
                drawn := (10 + drawn w)%nat |})
    /\ length delays = k /\ Sorted Z.le delays
    /\ Forall (fun d => d <= 8000) delays.
Proof.
  intros Hk Hfail Hok.
  destruct (timeouts_RETRY random w) as [ts [Hts [Hl [Hs Hf]]]].
  exists (take k ts). split; [| split; [| split]].
  - rewrite tatumRpc_unfold, Hts.
    apply (retryLoop_recovers transport cfg method params k ts 1 []);
      [lia | exact Hfail | exact Hok].
  - rewrite length_take. lia.
  - now apply Sorted_take.
  - now apply Forall_take.
Qed.

(** X2: a 2xx answer whose body is the JSON [null] makes the call raise
    the TypeError of [data.error] at once: one request, no delay, no
    retry. *)
Theorem tatumRpc_null_body (status : Z) (w : World) :
  isOk status = true ->
  transport (length (sent w)) req = Response status (Ok VNull) ->
  tatumRpc transport random cfg method params w =
    (Throw (mkError KTypeError "Cannot read properties of null (reading 'error')"),
     {| sent := sent w ++ [req]; slept := slept w; drawn := (10 + drawn w)%nat |}).
Proof.
  intros Hok Hnull.
  destruct (timeouts_RETRY random w) as [ts [Hts _]].
  rewrite tatumRpc_unfold, Hts, retryLoop_unfold, rpcAttempt_run.
  cbn [sent]. rewrite Hnull. unfold attemptResult.
  rewrite (isOk_not_retried _ Hok), Hok. reflexivity.
Qed.

(** X3: a truthy [error] member whose [message] is missing or falsy, met
    on every attempt, makes the call raise [RPC error] after 11
    requests. *)
Theorem tatumRpc_error_without_message
  (fields : list (string * JsValue)) (msg : JsValue) (w : World) :
  truthy (lookupField "error" fields) = true ->
  getProp (lookupField "error" fields) "message" = Ok msg ->
  truthy msg = false ->
  (forall i, (i <= 10)%nat ->
     transport (length (sent w) + i)%nat req = Response 200 (Ok (VObj fields))) ->
  exists w',
    tatumRpc transport random cfg method params w =
      (Throw (mkError KError "RPC error"), w')
    /\ sent w' = sent w ++ replicate 11 req.
Proof.
  intros Herr Hmsg Hfalsy Hscript.
  destruct (tatumRpc_persistent_failure transport random cfg method params
              (mkError KError "RPC error") w) as [delays [H _]].
  - reflexivity.
  - intros i Hi. rewrite (Hscript i Hi). unfold attemptResult.
    cbn [bindR getProp]. change ((200 =? 429) || (200 =? 403) || (200 =? 503)) with false.
    change (negb (isOk 200)) with false. cbv iota.
    rewrite Herr, Hmsg. cbn [bindR]. now rewrite Hfalsy.
  - eexists. split; [exact H | reflexivity].
Qed.

(** X4: a 2xx answer whose body is an object with a missing or falsy
    [error] member is a success: the call returns the [result] member,
    [undefined] when there is none, after one request and no delay. *)
Theorem tatumRpc_falsy_error_is_success
  (status : Z) (fields : list (string * JsValue)) (w : World) :
  isOk status = true ->
  truthy (lookupField "error" fields) = false ->
  transport (length (sent w)) req = Response status (Ok (VObj fields)) ->
  tatumRpc transport random cfg method params w =
    (Ok (lookupField "result" fields),
     {| sent := sent w ++ [req]; slept := slept w; drawn := (10 + drawn w)%nat |}).
Proof.
  intros Hok Herr Hans.
  destruct (tatumRpc_recovers 0 (lookupField "result" fields) w) as [delays [H [Hl _]]].
  - lia.
  - intros i Hi. lia.
  - rewrite Nat.add_0_r, Hans. unfold attemptResult.
    rewrite (isOk_not_retried _ Hok), Hok. cbn [bindR getProp negb].
    now rewrite Herr.
  - rewrite H. destruct delays; [| discriminate Hl].
    now rewrite app_nil_r.
Qed.

(** X5: failures that are no TypeError are retried: when each of the
    first [k <= 10] answers is a rejection of [fetch] that is no
    TypeError, a status outside 2xx, a body whose reading raises an
    error that is no TypeError, or a body with a truthy [error], and the
    next answer is a 2xx success, the call returns its result after
    [k + 1] requests and [k] delays. *)
Theorem tatumRpc_retries_any_failure (k : nat) (status : Z) (r : JsValue) (w : World) :
  (k <= 10)%nat ->
  (forall i, (i < k)%nat -> retriedAnswer (transport (length (sent w) + i)%nat req)) ->
  isOk status = true ->
  transport (length (sent w) + k)%nat req = Response status (Ok (rpcSuccess r)) ->
  exists delays w',
    tatumRpc transport random cfg method params w = (Ok r, w')
    /\ sent w' = sent w ++ replicate (S k) req
    /\ slept w' = slept w ++ delays
    /\ length delays = k.
Proof.
  intros Hk Hfail Hok Hsucc.
  destruct (tatumRpc_recovers k r w) as [delays [H [Hl _]]].
  - exact Hk.
  - intros i Hi. now apply retriedAnswer_outcome, Hfail.
  - rewrite Hsucc. now apply outcome_success.
  - exists delays. eexists. split; [exact H |]. now repeat split.
Qed.

End TatumRpcOnAnyNetwork.

(** ** The tools *)

(** Below 2^53 a non-negative bigint is its own [Number]. *)
Lemma numberOfBigInt_safe (n : Z) :
  0 <= n < 2 ^ 53 -> numberOfBigInt n = Finite n.
Proof.
  intros Hn. unfold numberOfBigInt, roundToDouble.
  replace (n <? 0) with false by (symmetry; apply Z.ltb_ge; lia).
  assert (Hl : Z.log2 n + 1 <= 53).
  { destruct (Z.eq_dec n 0) as [-> | Hne]; [simpl; lia |].
    assert (Z.log2 n < 53) by (apply Z.log2_lt_pow2; lia). lia. }
  cbv zeta. now replace (Z.log2 n + 1 <=? 53) with true by (symmetry; apply Z.leb_le; lia).
Qed.

Lemma addsOnly_ret {A} (P : Request -> Prop) (a : A) : addsOnly P 0 (ret a).
Proof.
  intros w. exists [], []. cbn [ret snd length]. rewrite !app_nil_r.
  repeat split; auto.
Qed.

Lemma addsOnly_throw {A} (P : Request -> Prop) (e : JsError) :
  addsOnly P 0 (@throw A e).
Proof.
  intros w. exists [], []. cbn [throw snd length]. rewrite !app_nil_r.
  repeat split; auto.
Qed.

Lemma addsOnly_liftR {A} (P : Request -> Prop) (r : result A) :
  addsOnly P 0 (liftR r).
Proof.
  intros w. exists [], []. cbn [liftR snd length]. rewrite !app_nil_r.
  repeat split; auto.
Qed.

Lemma addsOnly_mono {A} (P : Request -> Prop) (n m : nat) (c : M A) :
  (n <= m)%nat -> addsOnly P n c -> addsOnly P m c.
Proof.
  intros Hnm H w. destruct (H w) as [l [ds [H1 [H2 [H3 [H4 [H5 H6]]]]]]].
  exists l, ds. repeat split; auto. lia.
Qed.

Lemma addsOnly_bind {A B} (P : Request -> Prop) (n1 n2 : nat)
  (c : M A) (k : A -> M B) :
  addsOnly P n1 c -> (forall a, addsOnly P n2 (k a)) ->
  addsOnly P (n1 + n2) (bind c k).
Proof.
  intros Hc Hk w. destruct (Hc w) as [l [ds [H1 [H2 [H3 [H4 [H5 H6]]]]]]].
  unfold bind. destruct (c w) as [[a | e] w1]; cbn [snd] in *.
  - destruct (Hk a w1) as [l' [ds' [K1 [K2 [K3 [K4 [K5 K6]]]]]]].
    exists (l ++ l'), (ds ++ ds'). rewrite K1, K2, H1, H2, <- !app_assoc.
    repeat split; try (apply Forall_app; split; assumption);
      rewrite ?length_app; lia.
  - exists l, ds. repeat split; auto. lia.
Qed.

Lemma addsOnly_tryCatch {A} (P : Request -> Prop) (n1 n2 : nat)
  (c : M A) (h : JsError -> M A) :
  addsOnly P n1 c -> (forall e, addsOnly P n2 (h e)) ->
  addsOnly P (n1 + n2) (tryCatch c h).
Proof.
  intros Hc Hh w. destruct (Hc w) as [l [ds [H1 [H2 [H3 [H4 [H5 H6]]]]]]].
  unfold tryCatch. destruct (c w) as [[a | e] w1]; cbn [snd] in *.
  - exists l, ds. repeat split; auto. lia.
  - destruct (Hh e w1) as [l' [ds' [K1 [K2 [K3 [K4 [K5 K6]]]]]]].
    exists (l ++ l'), (ds ++ ds'). rewrite K1, K2, H1, H2, <- !app_assoc.
    repeat split; try (apply Forall_app; split; assumption);
      rewrite ?length_app; lia.
Qed.

Lemma gatewayRequest_rpcRequest (cfg : Cfg) (method : string) (params : list JsValue) :
  method ∈ ALLOW_METHODS -> gatewayRequest cfg (rpcRequest cfg method params).
Proof.
  intros H. repeat split. exists method. split; [reflexivity | exact H].
Qed.

Lemma allowed (method : string) :
  bool_decide (method ∈ ALLOW_METHODS) = true -> method ∈ ALLOW_METHODS.
Proof. apply bool_decide_eq_true_1. Qed.

Section Tools.

Variable transport : nat -> Request -> FetchOutcome.
Variable random : nat -> Q.
Variable cfg : Cfg.

Lemma addsOnly_tatumRpc (P : Request -> Prop) (method : string) (params : list JsValue) :
  P (rpcRequest cfg method params) ->
  addsOnly P 11 (tatumRpc transport random cfg method params).
Proof.
  intros HP w.
  destruct (tatumRpc_effects_any transport random cfg method params w)
    as [n [ds [Hn [H1 [H2 [H3 [_ [H4 _]]]]]]]].
  exists (replicate n (rpcRequest cfg method params)), ds.
  rewrite length_replicate. repeat split; auto; try lia.
  now apply Forall_replicate.
Qed.

(** X12: whatever tool is called, with whatever arguments, and whatever
    the network answers, every request the server sends goes to the
    gateway of the configured chain, carries the configured key and asks
    for a method of [ALLOW_METHODS]; a call sends at most 11 requests, 22
    for [get_token_balance], and no delay it sleeps is above 8000 ms. *)
Theorem callTool_requests (c : ToolCall) :
  addsOnly (gatewayRequest cfg)
    (match c with
     | GetTokenBalance _ _ => 22
     | _ => 11
     end)
    (callTool transport random cfg c).
Proof.
  destruct c as [| address | tokenAddress address | tagOrNumber full | hash
                 | fromBlock toBlock address topics | method params];
    cbn [callTool].
  - unfold get_block_number.
    apply (addsOnly_bind _ 11 0); [| intros hex; apply (addsOnly_bind _ 0 0);
      [apply addsOnly_liftR | intros n; apply addsOnly_ret]].
    apply addsOnly_tatumRpc, gatewayRequest_rpcRequest, allowed. vm_compute. reflexivity.
  - unfold get_native_balance.
    apply (addsOnly_bind _ 11 0); [| intros hex; apply (addsOnly_bind _ 0 0);
      [apply addsOnly_liftR | intros wei; apply (addsOnly_bind _ 0 0);
        [apply addsOnly_liftR | intros ether; apply addsOnly_ret]]].
    apply addsOnly_tatumRpc, gatewayRequest_rpcRequest, allowed. vm_compute. reflexivity.
  - unfold get_token_balance. cbv zeta.
    apply (addsOnly_bind _ 11 11).
    + apply addsOnly_tatumRpc, gatewayRequest_rpcRequest, allowed. vm_compute. reflexivity.
    + intros hexBal. apply (addsOnly_bind _ 11 0).
      * apply (addsOnly_tryCatch _ 11 0); [| intros e; apply addsOnly_ret].
        apply (addsOnly_bind _ 11 0);
          [| intros hexDec; apply (addsOnly_bind _ 0 0);
             [apply addsOnly_liftR | intros b; apply addsOnly_ret]].
        apply addsOnly_tatumRpc, gatewayRequest_rpcRequest, allowed.
        vm_compute. reflexivity.
      * intros [d | negative]; apply (addsOnly_bind _ 0 0);
          try apply addsOnly_liftR.
        -- intros [raw formatted]. apply addsOnly_ret.
        -- intros raw. apply addsOnly_throw.
  - unfold get_block_by_number.
    apply (addsOnly_bind _ 11 0); [| intros block; apply addsOnly_ret].
    apply addsOnly_tatumRpc, gatewayRequest_rpcRequest, allowed. vm_compute. reflexivity.
  - unfold get_transaction_by_hash.
    apply (addsOnly_bind _ 11 0); [| intros tx; apply addsOnly_ret].
    apply addsOnly_tatumRpc, gatewayRequest_rpcRequest, allowed. vm_compute. reflexivity.
  - unfold get_logs. cbv zeta.
    apply (addsOnly_bind _ 11 0); [| intros logs; apply addsOnly_ret].
    apply addsOnly_tatumRpc, gatewayRequest_rpcRequest, allowed. vm_compute. reflexivity.
  - unfold rpc_call. destruct (bool_decide (method ∈ ALLOW_METHODS)) eqn:E; cbn [negb].
    + apply (addsOnly_bind _ 11 0); [| intros r; apply addsOnly_ret].
      apply addsOnly_tatumRpc, gatewayRequest_rpcRequest, allowed, E.
    + apply (addsOnly_mono _ 0); [lia | apply addsOnly_throw].
Qed.

(** X13: when the gateway answers [eth_blockNumber] with a hexadecimal
    literal, [get_block_number] returns it with the decimal numeral of
    the same number. *)
Theorem get_block_number_decimal (h : string) (m : Z) (w w' : World) :
  tatumRpc transport random cfg "eth_blockNumber" [] w = (Ok (VStr h), w') ->
  hexDenotes h m ->
  get_block_number transport random cfg w =
    (Ok (TextContent
           (VObj [ ("hex", VStr h); ("decimal", VStr (bigIntToString m)) ]) 2), w')
  /\ parseNumeral 10 (bigIntToString m) = Some m.
Proof.
  intros Hrpc Hh. apply hexToBigInt_literal in Hh as [Hm Hpos]. split.
  - unfold get_block_number, bind. rewrite Hrpc. unfold liftR. now rewrite Hm.
  - rewrite bigIntToString_nonneg by exact Hpos. now apply natToString_parse.
Qed.

(** X14: when the gateway answers [eth_getBalance] with a hexadecimal
    literal of magnitude [m], the [wei] member of the answer of
    [get_native_balance] is the decimal numeral of [m] and its [ether]
    member reads back, at 18 decimals, as [m]. *)
Theorem get_native_balance_fields (address h : string) (m : Z) (w w' : World) :
  tatumRpc transport random cfg "eth_getBalance" [VStr address; VStr "latest"] w
  = (Ok (VStr h), w') ->
  hexDenotes h m ->
  exists ether,
    get_native_balance transport random cfg address w =
      (Ok (TextContent
             (VObj [ ("address", VStr address); ("hexWei", VStr h);
                     ("wei", VStr (bigIntToString m)); ("ether", VStr ether) ]) 2), w')
    /\ parseNumeral 10 (bigIntToString m) = Some m
    /\ etherStringToWei ether = Some m.
Proof.
  intros Hrpc Hh. apply hexToBigInt_literal in Hh as [Hm Hpos].
  exists (renderFixed m 18). split; [| split].
  - unfold get_native_balance, bind. rewrite Hrpc. unfold liftR.
    rewrite weiToEtherString_render, Hm. reflexivity.
  - rewrite bigIntToString_nonneg by exact Hpos. now apply natToString_parse.
  - apply (renderFixed_roundtrip m 18); lia.
Qed.

(** X15: when the gateway answers the balance call with a hexadecimal
    literal of magnitude [raw] and the decimals call with one of
    magnitude [d], at most 255 as the [uint8] of [decimals()] is,
    [get_token_balance] reports [raw] in decimal, [d] as the decimals,
    and a formatted text that reads back, at [d] decimals, as [raw]. *)
Theorem get_token_balance_fields
  (tokenAddress address hb hd : string) (raw d : Z) (w w1 w2 : World) :
  tatumRpc transport random cfg "eth_call"
    [ VObj [ ("to", VStr tokenAddress); ("data", VStr (balanceOfData address)) ];
      VStr "latest" ] w = (Ok (VStr hb), w1) ->
  tatumRpc transport random cfg "eth_call"
    [ VObj [ ("to", VStr tokenAddress); ("data", VStr "0x313ce567") ];
      VStr "latest" ] w1 = (Ok (VStr hd), w2) ->
  hexDenotes hb raw -> hexDenotes hd d -> d <= 255 ->
  exists formatted,
    get_token_balance transport random cfg tokenAddress address w =
      (Ok (TextContent
             (VObj [ ("tokenAddress", VStr tokenAddress); ("address", VStr address);
                     ("hex", VStr hb); ("raw", VStr (bigIntToString raw));
                     ("decimals", VNum d); ("formatted", VStr formatted) ]) 2), w2)
    /\ spec_parseFixed (Z.to_nat d) formatted = Some raw.
Proof.
  intros Hbal Hdec Hb Hd Hsmall.
  apply hexToBigInt_literal in Hb as [Hraw Hrpos].
  apply hexToBigInt_literal in Hd as [Hdv Hdpos].
  exists (renderFixed raw d). split.
  - unfold get_token_balance, balanceOfData in *. cbv zeta.
    unfold bind at 1. rewrite Hbal.
    unfold bind at 1, tryCatch, bind at 1. rewrite Hdec.
    unfold bind at 1, liftR at 1. rewrite Hdv.
    unfold ret at 1. rewrite numberOfBigInt_safe by lia.
    unfold bind, liftR. rewrite tokenFormatted_render, Hraw by exact Hdpos.
    reflexivity.
  - now apply renderFixed_roundtrip.
Qed.

(** X16: when the balance call succeeds and the decimals cannot be had,
    because the decimals call raises or because its result is no
    [BigInt] literal, [get_token_balance] does what it does with 18
    decimals: where the balance is a value [BigInt] accepts it reports
    18 decimals and the text [weiToEtherString] gives for the balance,
    and it raises only the error of the balance that [BigInt] rejects. *)
Theorem get_token_balance_default_decimals
  (tokenAddress address : string) (hexBal : JsValue)
  (rd : result JsValue) (e : JsError) (w w1 w2 : World) :
  tatumRpc transport random cfg "eth_call"
    [ VObj [ ("to", VStr tokenAddress); ("data", VStr (balanceOfData address)) ];
      VStr "latest" ] w = (Ok hexBal, w1) ->
  tatumRpc transport random cfg "eth_call"
    [ VObj [ ("to", VStr tokenAddress); ("data", VStr "0x313ce567") ];
      VStr "latest" ] w1 = (rd, w2) ->
  bindR rd hexToBigInt = Throw e ->
  get_token_balance transport random cfg tokenAddress address w =
    (bindR (hexToBigInt hexBal) (fun raw =>
     bindR (weiToEtherString hexBal) (fun ether =>
     Ok (TextContent
           (VObj [ ("tokenAddress", VStr tokenAddress); ("address", VStr address);
                   ("hex", hexBal); ("raw", VStr (bigIntToString raw));
                   ("decimals", VNum 18); ("formatted", VStr ether) ]) 2))), w2).
Proof.
  intros Hbal Hdec Hfail.
  assert (Hfmt : forall w',
    (let* rf := liftR (tokenFormatted hexBal 18) in
     let '(raw, formatted) := rf in
     ret (TextContent
            (VObj [ ("tokenAddress", VStr tokenAddress); ("address", VStr address);
                    ("hex", hexBal); ("raw", VStr (bigIntToString raw));
                    ("decimals", VNum 18); ("formatted", VStr formatted) ]) 2)) w'
    = (bindR (hexToBigInt hexBal) (fun raw =>
       bindR (weiToEtherString hexBal) (fun ether =>
       Ok (TextContent
             (VObj [ ("tokenAddress", VStr tokenAddress); ("address", VStr address);
                     ("hex", hexBal); ("raw", VStr (bigIntToString raw));
                     ("decimals", VNum 18); ("formatted", VStr ether) ]) 2))), w')).
  { intros w'. unfold bind, liftR.
    rewrite tokenFormatted_render, weiToEtherString_render by lia.
    destruct (hexToBigInt hexBal) as [raw | e0]; reflexivity. }
  unfold get_token_balance, balanceOfData in *. cbv zeta.
  unfold bind at 1. rewrite Hbal.
  unfold bind at 1, tryCatch, bind at 1. rewrite Hdec.
  destruct rd as [hexDec | e'].
  - cbn [bindR] in Hfail. unfold bind at 1, liftR at 1. rewrite Hfail.
    unfold ret at 1. apply Hfmt.
  - unfold ret at 1. apply Hfmt.
Qed.

(** X17: [get_token_balance] asks for the balance first, between 1 and
    11 times, then for the decimals, at most 11 times and only when the
    balance call returned; it sends nothing else. *)
Theorem get_token_balance_requests (tokenAddress address : string) (w : World) :
  exists n1 n2,
    (1 <= n1 <= 11)%nat /\ (n2 <= 11)%nat
    /\ sent (snd (get_token_balance transport random cfg tokenAddress address w))
       = sent w
         ++ replicate n1 (balanceRequest cfg tokenAddress address)
         ++ replicate n2 (decimalsRequest cfg tokenAddress)
    /\ (n2 = 0%nat <->
        exists e, fst (tatumRpc transport random cfg "eth_call"
                         [ VObj [ ("to", VStr tokenAddress);
                                  ("data", VStr (balanceOfData address)) ];
                           VStr "latest" ] w) = Throw e).
Proof.
  unfold get_token_balance, balanceRequest, decimalsRequest, balanceOfData. cbv zeta.
  set (balParams := [ VObj [ ("to", VStr tokenAddress);
                             ("data", VStr ("0x70a08231"
                                +:+ padStart (stripHexPrefix address) 64 "0")) ];
                      VStr "latest" ]).
  set (decParams := [ VObj [ ("to", VStr tokenAddress); ("data", VStr "0x313ce567") ];
                      VStr "latest" ]).
  destruct (tatumRpc_effects_any transport random cfg "eth_call" balParams w)
    as [n1 [ds1 [Hn1 [Hs1 _]]]].
  unfold bind at 1.
  destruct (tatumRpc transport random cfg "eth_call" balParams w) as [[hexBal | e] w1];
    cbn [snd fst] in *.
  - destruct (tatumRpc_effects_any transport random cfg "eth_call" decParams w1)
      as [n2 [ds2 [Hn2 [Hs2 _]]]].
    exists n1, n2. split; [exact Hn1 |]. split; [lia |]. split.
    + unfold bind at 1, tryCatch, bind at 1.
      destruct (tatumRpc transport random cfg "eth_call" decParams w1)
        as [[hexDec | e] w2]; cbn [snd] in *.
      * unfold bind at 1, liftR at 1.
        destruct (hexToBigInt hexDec) as [b | e]; unfold ret at 1;
          [destruct (numberOfBigInt b) as [d | negative] |];
          unfold bind, liftR, throw, ret;
          try (destruct (tokenFormatted hexBal _) as [[raw formatted] | e']);
          try (destruct (hexToBigInt hexBal) as [raw | e']);
          cbn [snd]; rewrite Hs2, Hs1, <- app_assoc; reflexivity.
      * unfold ret at 1, bind, liftR.
        destruct (tokenFormatted hexBal 18) as [[raw formatted] | e'];
          cbn [snd ret]; rewrite Hs2, Hs1, <- app_assoc; reflexivity.
    + split; [intros ->; lia | intros [e He]; discriminate He].
  - exists n1, 0%nat. split; [exact Hn1 |]. split; [lia |]. split.
    + cbn [replicate]. now rewrite app_nil_r.
    + split; [intros _; now exists e | reflexivity].
Qed.

End Tools.

(** ** The call data of [balanceOf] *)

Lemma hexMagnitude_leading_zeros (k : nat) (a : string) :
  hexMagnitude (repeatChar k "0" +:+ a) 0 = hexMagnitude a 0.
Proof. induction k as [|k IH]; [reflexivity | exact IH]. Qed.

(** X18: for an address written [0x] and at most 64 hexadecimal digits,
    the call data is the selector [0x70a08231] followed by a word of
    exactly 64 hexadecimal digits that denotes the same number as the
    address; digits beyond 64 are not cut off. *)
Theorem balanceOfData_word (a : string) :
  allChars isHexDigit a = true ->
  ((String.length a <= 64)%nat ->
   exists word,
     balanceOfData (String "0" (String "x" a)) = "0x70a08231" +:+ word
     /\ String.length word = 64%nat
     /\ allChars isHexDigit word = true
     /\ hexMagnitude word 0 = hexMagnitude a 0)
  /\ ((64 <= String.length a)%nat ->
      balanceOfData (String "0" (String "x" a)) = "0x70a08231" +:+ a).
Proof.
  intros Ha. unfold balanceOfData. cbn [stripHexPrefix]. split.
  - intros Hlen. exists (padStart a 64 "0"). split; [reflexivity |].
    split; [now apply padStart_length |]. unfold padStart. split.
    + rewrite allChars_app, allChars_repeatChar by reflexivity. exact Ha.
    + apply hexMagnitude_leading_zeros.
  - intros Hlen. unfold padStart.
    replace (64 - String.length a)%nat with 0%nat by lia. reflexivity.
Qed.

Lemma balanceOfData_word_witness :
  ((String.length "742d35Cc6074C4532895c05b22629ce5b3c28da4" <= 64)%nat ->
   exists word,
     balanceOfData "0x742d35Cc6074C4532895c05b22629ce5b3c28da4" = "0x70a08231" +:+ word
     /\ String.length word = 64%nat
     /\ allChars isHexDigit word = true
     /\ hexMagnitude word 0 = hexMagnitude "742d35Cc6074C4532895c05b22629ce5b3c28da4" 0)
  /\ ((64 <= String.length "742d35Cc6074C4532895c05b22629ce5b3c28da4")%nat ->
      balanceOfData "0x742d35Cc6074C4532895c05b22629ce5b3c28da4"
      = "0x70a08231" +:+ "742d35Cc6074C4532895c05b22629ce5b3c28da4").
Proof.
  apply (balanceOfData_word "742d35Cc6074C4532895c05b22629ce5b3c28da4").
  reflexivity.
Defined.

(** ** Concrete runs of the further properties *)

Lemma tatumRpc_null_body_witness :
  tatumRpc (always (Response 200 (Ok VNull))) noJitter exampleCfg "eth_call" []
    initialWorld
  = (Throw (mkError KTypeError "Cannot read properties of null (reading 'error')"),
     {| sent := sent initialWorld ++ [rpcRequest exampleCfg "eth_call" []];
        slept := slept initialWorld;
        drawn := (10 + drawn initialWorld)%nat |}).
Proof.
  apply (tatumRpc_null_body (always (Response 200 (Ok VNull))) noJitter
           exampleCfg "eth_call" [] 200 initialWorld); reflexivity.
Defined.

Lemma tatumRpc_error_without_message_witness :
  exists w',
    tatumRpc (always (Response 200 (Ok (VObj [("error", VStr "execution reverted")]))))
      noJitter exampleCfg "eth_call" [] initialWorld
    = (Throw (mkError KError "RPC error"), w')
    /\ sent w' = sent initialWorld ++ replicate 11 (rpcRequest exampleCfg "eth_call" []).
Proof.
  apply (tatumRpc_error_without_message
           (always (Response 200 (Ok (VObj [("error", VStr "execution reverted")]))))
           noJitter exampleCfg "eth_call" []
           [("error", VStr "execution reverted")] VUndefined initialWorld).
  - reflexivity.
  - reflexivity.
  - reflexivity.
  - intros i Hi. reflexivity.
Defined.

Lemma tatumRpc_falsy_error_is_success_witness :
  tatumRpc
    (always (Response 200 (Ok (VObj [("error", VNull); ("result", VStr "0x1")]))))
    noJitter exampleCfg "eth_chainId" [] initialWorld
  = (Ok (lookupField "result" [("error", VNull); ("result", VStr "0x1")]),
     {| sent := sent initialWorld ++ [rpcRequest exampleCfg "eth_chainId" []];
        slept := slept initialWorld;
        drawn := (10 + drawn initialWorld)%nat |}).
Proof.
  apply (tatumRpc_falsy_error_is_success
           (always (Response 200 (Ok (VObj [("error", VNull); ("result", VStr "0x1")]))))
           noJitter exampleCfg "eth_chainId" [] 200
           [("error", VNull); ("result", VStr "0x1")] initialWorld); reflexivity.
Defined.

Lemma tatumRpc_retries_any_failure_witness :
  exists delays w',
    tatumRpc
      (failThenSucceed 2 (FetchFailed (mkError KFetchError "socket hang up"))
         (Response 200 (Ok (rpcSuccess (VStr "0x10")))))
      noJitter exampleCfg "eth_blockNumber" [] initialWorld
    = (Ok (VStr "0x10"), w')
    /\ sent w' = sent initialWorld ++ replicate 3 (rpcRequest exampleCfg "eth_blockNumber" [])
    /\ slept w' = slept initialWorld ++ delays
    /\ length delays = 2%nat.
Proof.
  apply (tatumRpc_retries_any_failure
           (failThenSucceed 2 (FetchFailed (mkError KFetchError "socket hang up"))
              (Response 200 (Ok (rpcSuccess (VStr "0x10")))))
           noJitter exampleCfg "eth_blockNumber" [] 2 200 (VStr "0x10") initialWorld).
  - lia.
  - intros i Hi. destruct i as [|[|i]]; [| | lia];
      apply retried_network; discriminate.
  - reflexivity.
  - reflexivity.
Defined.

Lemma get_block_number_decimal_witness :
  get_block_number (always (Response 200 (Ok (rpcSuccess (VStr "0x168781ab")))))
    noJitter exampleCfg initialWorld
  = (Ok (TextContent
           (VObj [ ("hex", VStr "0x168781ab");
                   ("decimal", VStr (bigIntToString 377979307)) ]) 2),
     snd (tatumRpc (always (Response 200 (Ok (rpcSuccess (VStr "0x168781ab")))))
            noJitter exampleCfg "eth_blockNumber" [] initialWorld))
  /\ parseNumeral 10 (bigIntToString 377979307) = Some 377979307.
Proof.
  apply (get_block_number_decimal
           (always (Response 200 (Ok (rpcSuccess (VStr "0x168781ab")))))
           noJitter exampleCfg "0x168781ab" 377979307 initialWorld).
  - vm_compute. reflexivity.
  - apply (hexDenotes_lower "168781ab"); [discriminate | reflexivity].
Defined.

Lemma get_native_balance_fields_witness :
  exists ether,
    get_native_balance (always (Response 200 (Ok (rpcSuccess (VStr "0x189588672da7830")))))
      noJitter exampleCfg "0x742d35Cc6074C4532895c05b22629ce5b3c28da4" initialWorld
    = (Ok (TextContent
             (VObj [ ("address", VStr "0x742d35Cc6074C4532895c05b22629ce5b3c28da4");
                     ("hexWei", VStr "0x189588672da7830");
                     ("wei", VStr (bigIntToString 110717000323070000));
                     ("ether", VStr ether) ]) 2),
       snd (tatumRpc (always (Response 200 (Ok (rpcSuccess (VStr "0x189588672da7830")))))
              noJitter exampleCfg "eth_getBalance"
              [VStr "0x742d35Cc6074C4532895c05b22629ce5b3c28da4"; VStr "latest"]
              initialWorld))
    /\ parseNumeral 10 (bigIntToString 110717000323070000) = Some 110717000323070000
    /\ etherStringToWei ether = Some 110717000323070000.
Proof.
  apply (get_native_balance_fields
           (always (Response 200 (Ok (rpcSuccess (VStr "0x189588672da7830")))))
           noJitter exampleCfg "0x742d35Cc6074C4532895c05b22629ce5b3c28da4"
           "0x189588672da7830" 110717000323070000 initialWorld).
  - vm_compute. reflexivity.
  - apply (hexDenotes_lower "189588672da7830"); [discriminate | reflexivity].
Defined.

Lemma get_token_balance_fields_witness :
  exists formatted,
    get_token_balance
      (failThenSucceed 1 (Response 200 (Ok (rpcSuccess (VStr "0x149970"))))
         (Response 200 (Ok (rpcSuccess (VStr "0x6")))))
      noJitter exampleCfg "0xaf88d065e77c8cC2239327C5EDb3A432268e5831"
      "0x742d35Cc6074C4532895c05b22629ce5b3c28da4" initialWorld
    = (Ok (TextContent
             (VObj [ ("tokenAddress", VStr "0xaf88d065e77c8cC2239327C5EDb3A432268e5831");
                     ("address", VStr "0x742d35Cc6074C4532895c05b22629ce5b3c28da4");
                     ("hex", VStr "0x149970"); ("raw", VStr (bigIntToString 1350000));
                     ("decimals", VNum 6); ("formatted", VStr formatted) ]) 2),
       snd (tatumRpc
              (failThenSucceed 1 (Response 200 (Ok (rpcSuccess (VStr "0x149970"))))
                 (Response 200 (Ok (rpcSuccess (VStr "0x6")))))
              noJitter exampleCfg "eth_call"
              [ VObj [ ("to", VStr "0xaf88d065e77c8cC2239327C5EDb3A432268e5831");
                       ("data", VStr "0x313ce567") ];
                VStr "latest" ]
              (snd (tatumRpc
                      (failThenSucceed 1 (Response 200 (Ok (rpcSuccess (VStr "0x149970"))))
                         (Response 200 (Ok (rpcSuccess (VStr "0x6")))))
                      noJitter exampleCfg "eth_call"
                      [ VObj [ ("to", VStr "0xaf88d065e77c8cC2239327C5EDb3A432268e5831");
                               ("data",
                                VStr (balanceOfData
                                        "0x742d35Cc6074C4532895c05b22629ce5b3c28da4")) ];
                        VStr "latest" ]
                      initialWorld))))
    /\ spec_parseFixed (Z.to_nat 6) formatted = Some 1350000.
Proof.
  eapply (get_token_balance_fields
            (failThenSucceed 1 (Response 200 (Ok (rpcSuccess (VStr "0x149970"))))
               (Response 200 (Ok (rpcSuccess (VStr "0x6")))))
            noJitter exampleCfg "0xaf88d065e77c8cC2239327C5EDb3A432268e5831"
            "0x742d35Cc6074C4532895c05b22629ce5b3c28da4" "0x149970" "0x6"
            1350000 6 initialWorld).
  - vm_compute. reflexivity.
  - vm_compute. reflexivity.
  - apply (hexDenotes_lower "149970"); [discriminate | reflexivity].
  - apply (hexDenotes_lower "6"); [discriminate | reflexivity].
  - lia.
Defined.

Lemma get_token_balance_default_decimals_witness :
  get_token_balance
    (failThenSucceed 1 (Response 200 (Ok (rpcSuccess (VStr "0xde0b6b3a7640000"))))
       (Response 500 (Ok VNull)))
    noJitter exampleCfg "0xaf88d065e77c8cC2239327C5EDb3A432268e5831"
    "0x742d35Cc6074C4532895c05b22629ce5b3c28da4" initialWorld
  = (bindR (hexToBigInt (VStr "0xde0b6b3a7640000")) (fun raw =>
     bindR (weiToEtherString (VStr "0xde0b6b3a7640000")) (fun ether =>
     Ok (TextContent
           (VObj [ ("tokenAddress", VStr "0xaf88d065e77c8cC2239327C5EDb3A432268e5831");
                   ("address", VStr "0x742d35Cc6074C4532895c05b22629ce5b3c28da4");
                   ("hex", VStr "0xde0b6b3a7640000");
                   ("raw", VStr (bigIntToString raw));
                   ("decimals", VNum 18); ("formatted", VStr ether) ]) 2))),
     snd (tatumRpc
            (failThenSucceed 1
               (Response 200 (Ok (rpcSuccess (VStr "0xde0b6b3a7640000"))))
               (Response 500 (Ok VNull)))
            noJitter exampleCfg "eth_call"
            [ VObj [ ("to", VStr "0xaf88d065e77c8cC2239327C5EDb3A432268e5831");
                     ("data", VStr "0x313ce567") ];
              VStr "latest" ]
            (snd (tatumRpc
                    (failThenSucceed 1
                       (Response 200 (Ok (rpcSuccess (VStr "0xde0b6b3a7640000"))))
                       (Response 500 (Ok VNull)))
                    noJitter exampleCfg "eth_call"
                    [ VObj [ ("to", VStr "0xaf88d065e77c8cC2239327C5EDb3A432268e5831");
                             ("data",
                              VStr (balanceOfData
                                      "0x742d35Cc6074C4532895c05b22629ce5b3c28da4")) ];
                      VStr "latest" ]
                    initialWorld)))).
Proof.
  eapply (get_token_balance_default_decimals
            (failThenSucceed 1 (Response 200 (Ok (rpcSuccess (VStr "0xde0b6b3a7640000"))))
               (Response 500 (Ok VNull)))
            noJitter exampleCfg "0xaf88d065e77c8cC2239327C5EDb3A432268e5831"
            "0x742d35Cc6074C4532895c05b22629ce5b3c28da4" (VStr "0xde0b6b3a7640000")
            (Throw (mkError KError "RPC eth_call failed 500"))
            (mkError KError "RPC eth_call failed 500") initialWorld).
  - vm_compute. reflexivity.
  - vm_compute. reflexivity.
  - reflexivity.
Defined.

(** X19: when the balance call returns a value that [BigInt] rejects,
    such as the ["0x"] an address without code answers with,
    [get_token_balance] raises that error, whatever the decimals call
    gives. *)
Theorem get_token_balance_bad_balance
  (transport : nat -> Request -> FetchOutcome) (random : nat -> Q) (cfg : Cfg)
  (tokenAddress address : string) (hexBal : JsValue) (e : JsError) (w w1 : World) :
  tatumRpc transport random cfg "eth_call"
    [ VObj [ ("to", VStr tokenAddress); ("data", VStr (balanceOfData address)) ];
      VStr "latest" ] w = (Ok hexBal, w1) ->
  hexToBigInt hexBal = Throw e ->
  fst (get_token_balance transport random cfg tokenAddress address w) = Throw e.
Proof.
  intros Hbal Hbad. unfold get_token_balance, balanceOfData in *. cbv zeta.
  unfold bind at 1. rewrite Hbal.
  unfold bind at 1, tryCatch, bind at 1.
  destruct (tatumRpc transport random cfg "eth_call" _ w1) as [[hexDec | e'] w2].
  - unfold bind at 1, liftR at 1.
    destruct (hexToBigInt hexDec) as [b | e'']; unfold ret at 1;
      [destruct (numberOfBigInt b) as [d | negative] |];
      unfold bind, liftR, tokenFormatted; rewrite Hbad; reflexivity.
  - unfold ret at 1, bind, liftR. unfold tokenFormatted. rewrite Hbad. reflexivity.
Qed.

Lemma get_token_balance_bad_balance_witness :
  fst (get_token_balance (always (Response 200 (Ok (rpcSuccess (VStr "0x")))))
         noJitter exampleCfg "0x742d35Cc6074C4532895c05b22629ce5b3c28da4"
         "0x742d35Cc6074C4532895c05b22629ce5b3c28da4" initialWorld)
  = Throw (cannotConvert "0x").
Proof.
  eapply (get_token_balance_bad_balance
            (always (Response 200 (Ok (rpcSuccess (VStr "0x")))))
            noJitter exampleCfg "0x742d35Cc6074C4532895c05b22629ce5b3c28da4"
            "0x742d35Cc6074C4532895c05b22629ce5b3c28da4" (VStr "0x")
            (cannotConvert "0x") initialWorld).
  - vm_compute. reflexivity.
  - vm_compute. reflexivity.
Defined.

(** C1 as stated fails on bare hexadecimal strings, which the
    specification counts as valid: ["10"] denotes 16 and its text reads
    back as 10, and for ["ff"] no text is returned. *)
Lemma weiToEtherString_bare_hex_no_roundtrip :
  spec_isHexString "10" = true
  /\ spec_hexMagnitude "10" = 16
  /\ weiToEtherString (VStr "10") = Ok "0.00000000000000001"
  /\ etherStringToWei "0.00000000000000001" = Some 10
  /\ spec_isHexString "ff" = true
  /\ spec_hexMagnitude "ff" = 255
  /\ weiToEtherString (VStr "ff") = Throw (cannotConvert "ff").
Proof. repeat split; vm_compute; reflexivity. Qed.
